(** * Job Portal front end (frontend/src/App.js): session store, API calls,
      route guard and form handlers, as a shallow embedding.

    The program is a React single-page client.  Its behaviour is a reaction
    to events: a form is submitted, a button is clicked, the response of an
    HTTP call arrives.  The embedding keeps that shape.

    - JavaScript values are the inductive [JsVal]; truthiness, [||], member
      access, optional chaining and string conversion follow ECMAScript.
    - The ambient mutable objects the code touches ([localStorage],
      [axios.defaults.headers.common], the console) and the React state
      cells live in one record, [World], threaded explicitly.
    - [try]/[catch]/[finally] is a state-and-exception monad [M].
    - Every [async] function of the file has exactly one [await], on an
      axios call.  It is split there: the part before the [await] issues
      the request and registers a continuation ([Cont]); the part after it
      is the [_resume] function, run when the response is delivered. *)

From Stdlib Require Import ZArith Ascii String.
From stdpp Require Import base tactics option list strings pretty gmap.

Open Scope string_scope.
Set Warnings "-register-all".

(** ** JavaScript values *)

(** Numbers are kept integral ([JNum]) with [JNaN] apart: the program only
    tests numbers for truthiness and produces them with [parseInt]. Objects
    are property lists in insertion order; a key is looked up at its first
    occurrence. *)
Inductive JsVal : Type :=
| JUndefined
| JNull
| JBool (b : bool)
| JNum (n : Z)
| JNaN
| JStr (s : string)
| JArr (items : list JsVal)
| JObj (props : list (string * JsVal)).

(** ToBoolean. *)
Definition truthy (v : JsVal) : bool :=
  match v with
  | JUndefined | JNull | JNaN => false
  | JBool b => b
  | JNum n => negb (n =? 0)%Z
  | JStr s => match s with EmptyString => false | String _ _ => true end
  | JArr _ | JObj _ => true
  end.

(** [a || b]. *)
Definition js_or (a b : JsVal) : JsVal := if truthy a then a else b.

Definition nullish (v : JsVal) : bool :=
  match v with JUndefined | JNull => true | _ => false end.

(** ToString, as used by template literals and by [localStorage.setItem]. *)
Fixpoint ToString (v : JsVal) : string :=
  match v with
  | JUndefined => "undefined"
  | JNull => "null"
  | JBool true => "true"
  | JBool false => "false"
  | JNum n => pretty n
  | JNaN => "NaN"
  | JStr s => s
  | JArr items =>
      (fix join (l : list JsVal) : string :=
         match l with
         | [] => ""
         | x :: l' =>
             (if nullish x then "" else ToString x) +:+
             match l' with [] => "" | _ :: _ => "," +:+ join l' end
         end) items
  | JObj _ => "[object Object]"
  end.

Fixpoint assoc (k : string) (l : list (string * JsVal)) : option JsVal :=
  match l with
  | [] => None
  | (k', v) :: l' => if String.eqb k k' then Some v else assoc k l'
  end.

(** ** Completions: a JavaScript computation ends normally or throws. *)
Inductive Completion (A : Type) : Type :=
| Normal (a : A)
| Throw (e : JsVal).
Arguments Normal {A} a.
Arguments Throw {A} e.

(** The [TypeError] the engine throws on [undefined.x] or on destructuring
    [null]; it carries no [response] property. *)
Definition TypeError : JsVal := JObj [("name", JStr "TypeError")].

(** [v.k].  Reading a property of [undefined] or [null] throws; a missing
    property reads as [undefined].  Of the built-in properties of strings
    and arrays only [length] is modelled. *)
Definition member (v : JsVal) (k : string) : Completion JsVal :=
  match v with
  | JUndefined | JNull => Throw TypeError
  | JObj props => Normal (default JUndefined (assoc k props))
  | JStr s => Normal (if String.eqb k "length" then JNum (Z.of_nat (String.length s)) else JUndefined)
  | JArr l => Normal (if String.eqb k "length" then JNum (Z.of_nat (length l)) else JUndefined)
  | _ => Normal JUndefined
  end.

(** [v?.k]. *)
Definition opt_member (v : JsVal) (k : string) : Completion JsVal :=
  if nullish v then Normal JUndefined else member v k.

(** [v.k] where [v] is known not to be nullish. *)
Definition prop (v : JsVal) (k : string) : JsVal :=
  match member v k with Normal x => x | Throw _ => JUndefined end.

(** [v === 'lit']. *)
Definition strict_eq_str (v : JsVal) (lit : string) : bool :=
  match v with JStr s => String.eqb s lit | _ => false end.

(** ** The browser: storage, axios defaults, network, console *)

Inductive Method := GET | POST.

(** A request body: JSON data, or a [FormData] with its appended entries. *)
Inductive Body :=
| NoBody
| JsonBody (data : JsVal)
| FormDataBody (entries : list (string * JsVal)).

(** A request as it leaves axios: [req_headers] are the per-call headers
    merged over [axios.defaults.headers.common] at the time of the call
    (the headers axios adds by itself are left out). *)
Record Request := mkRequest {
  req_method : Method;
  req_url : string;
  req_headers : gmap string string;
  req_body : Body
}.

(** How an awaited axios promise settles: resolved with a response (of which
    the program reads only [data]) or rejected with an error object, given
    by its properties. *)
Inductive Outcome :=
| Resolved (data : JsVal)
| Rejected (error : list (string * JsVal)).

(** The suspended [async] functions, one constructor per [await]. *)
Inductive Cont :=
| KfetchUser
| Klogin
| Kregister
| KCandidate_fetchJobs
| KCandidate_fetchResumes
| KCandidate_fetchApplications
| KhandleUploadResume
| KhandleApplyToJob
| KEmployer_fetchJobs
| KEmployer_fetchApplications
| KhandleCreateJob.

Record Browser := mkBrowser {
  localStorage : gmap string string;
  axios_defaults : gmap string string;   (* axios.defaults.headers.common *)
  network : list Request;                (* requests issued, oldest first *)
  pending : list (nat * Cont);           (* awaits in flight, by request index *)
  console : list (string * JsVal)        (* console.error(label, value) *)
}.

(** ** React state *)

Module AuthState.
Record t := mk { user : JsVal; loading : bool }.
Definition init : t := {| user := JNull; loading := true |}.
End AuthState.

Module LoginState.
Record t := mk { error : JsVal; showRegister : bool }.
Definition init : t := {| error := JStr ""; showRegister := false |}.
End LoginState.

Module RegisterState.
Record t := mk { error : JsVal }.
Definition init : t := {| error := JStr "" |}.
End RegisterState.

Module CandidateState.
Record t := mk {
  jobs : JsVal;
  resumes : JsVal;
  applications : JsVal;
  selectedJob : JsVal;
  showUploadModal : bool;
  showApplicationModal : bool
}.
Definition init : t :=
  {| jobs := JArr []; resumes := JArr []; applications := JArr [];
     selectedJob := JNull; showUploadModal := false;
     showApplicationModal := false |}.
End CandidateState.

Module EmployerState.
Record t := mk {
  jobs : JsVal;
  applications : JsVal;
  showJobModal : bool
}.
Definition init : t :=
  {| jobs := JArr []; applications := JArr []; showJobModal := false |}.
End EmployerState.

Record World := mkWorld {
  browser : Browser;
  auth : AuthState.t;
  login_st : LoginState.t;
  register_st : RegisterState.t;
  candidate : CandidateState.t;
  employer : EmployerState.t
}.

Definition upd_browser (f : Browser -> Browser) (w : World) : World :=
  mkWorld (f (browser w)) (auth w) (login_st w) (register_st w) (candidate w) (employer w).
Definition upd_auth (f : AuthState.t -> AuthState.t) (w : World) : World :=
  mkWorld (browser w) (f (auth w)) (login_st w) (register_st w) (candidate w) (employer w).
Definition upd_login (f : LoginState.t -> LoginState.t) (w : World) : World :=
  mkWorld (browser w) (auth w) (f (login_st w)) (register_st w) (candidate w) (employer w).
Definition upd_register (f : RegisterState.t -> RegisterState.t) (w : World) : World :=
  mkWorld (browser w) (auth w) (login_st w) (f (register_st w)) (candidate w) (employer w).
Definition upd_candidate (f : CandidateState.t -> CandidateState.t) (w : World) : World :=
  mkWorld (browser w) (auth w) (login_st w) (register_st w) (f (candidate w)) (employer w).
Definition upd_employer (f : EmployerState.t -> EmployerState.t) (w : World) : World :=
  mkWorld (browser w) (auth w) (login_st w) (register_st w) (candidate w) (f (employer w)).

(** Shorthands for the session cells. *)
Definition user (w : World) : JsVal := AuthState.user (auth w).
Definition loading (w : World) : bool := AuthState.loading (auth w).
Definition token (w : World) : option string := localStorage (browser w) !! "token".
Definition authorization (w : World) : option string :=
  axios_defaults (browser w) !! "Authorization".

(** ** The monad of handlers: state and exceptions *)

Definition M (A : Type) : Type := World -> World * Completion A.

Definition ret {A} (a : A) : M A := fun w => (w, Normal a).
Definition throw {A} (e : JsVal) : M A := fun w => (w, Throw e).
Definition bind {A B} (m : M A) (f : A -> M B) : M B :=
  fun w => match m w with
           | (w', Normal a) => f a w'
           | (w', Throw e) => (w', Throw e)
           end.
Definition lift {A} (c : Completion A) : M A := fun w => (w, c).
Definition modify (f : World -> World) : M unit := fun w => (f w, Normal tt).

#[global] Instance M_ret : MRet M := @ret.
#[global] Instance M_bind : MBind M := fun A B f m => bind m f.

(** [try { body } catch (error) { handler error }] *)
Definition try_catch {A} (body : M A) (handler : JsVal -> M A) : M A :=
  fun w => match body w with
           | (w', Throw e) => handler e w'
           | r => r
           end.

(** [try { body } catch (error) { handler error } finally { fin }] *)
Definition try_catch_finally {A} (body : M A) (handler : JsVal -> M A)
    (fin : M unit) : M A :=
  fun w => match try_catch body handler w with
           | (w', c) =>
               match fin w' with
               | (w'', Normal _) => (w'', c)
               | (w'', Throw e) => (w'', Throw e)
               end
           end.

(** [const x = await promise]: the value of a resolved promise, or the
    rejection thrown at the [await]. *)
Definition await (o : Outcome) : M JsVal :=
  match o with
  | Resolved data => ret data
  | Rejected error => throw (JObj error)
  end.

Definition exec {A} (m : M A) (w : World) : World := fst (m w).
Definition completion {A} (m : M A) (w : World) : Completion A := snd (m w).

(** *** Browser operations *)

Definition localStorage_setItem (k v : string) : M unit :=
  modify (upd_browser (fun b =>
    mkBrowser (<[k := v]> (localStorage b)) (axios_defaults b) (network b) (pending b) (console b))).

Definition localStorage_removeItem (k : string) : M unit :=
  modify (upd_browser (fun b =>
    mkBrowser (delete k (localStorage b)) (axios_defaults b) (network b) (pending b) (console b))).

(** [axios.defaults.headers.common[k] = v] *)
Definition set_default_header (k v : string) : M unit :=
  modify (upd_browser (fun b =>
    mkBrowser (localStorage b) (<[k := v]> (axios_defaults b)) (network b) (pending b) (console b))).

(** [delete axios.defaults.headers.common[k]] *)
Definition delete_default_header (k : string) : M unit :=
  modify (upd_browser (fun b =>
    mkBrowser (localStorage b) (delete k (axios_defaults b)) (network b) (pending b) (console b))).

Definition console_error (label : string) (v : JsVal) : M unit :=
  modify (upd_browser (fun b =>
    mkBrowser (localStorage b) (axios_defaults b) (network b) (pending b)
              (console b ++ [(label, v)]))).

(** An axios call followed by [await]: the request goes out with the call's
    headers merged over the defaults, and the caller is suspended as [k]
    under the request's index. *)
Definition axios_request (m : Method) (url : string) (body : Body)
    (headers : gmap string string) (k : Cont) : M unit :=
  modify (upd_browser (fun b =>
    mkBrowser (localStorage b) (axios_defaults b)
              (network b ++ [mkRequest m url (headers ∪ axios_defaults b) body])
              (pending b ++ [(length (network b), k)])
              (console b))).

Definition axios_get (url : string) (k : Cont) : M unit :=
  axios_request GET url NoBody ∅ k.

Definition axios_post (url : string) (body : Body) (headers : gmap string string)
    (k : Cont) : M unit :=
  axios_request POST url body headers k.

(** ** String built-ins: [trim] and [parseInt] *)

(** JavaScript strings are sequences of UTF-16 code units; the model keeps
    the code units below 256, one [ascii] each.  Among those the white space
    and line terminators of ECMAScript are TAB, LF, VT, FF, CR, SPACE and
    NBSP. *)
Definition is_whitespace (c : ascii) : bool :=
  let n := nat_of_ascii c in
  existsb (Nat.eqb n) [9; 10; 11; 12; 13; 32; 160]%nat.

Fixpoint trimStart (s : string) : string :=
  match s with
  | EmptyString => EmptyString
  | String c s' => if is_whitespace c then trimStart s' else s
  end.

Fixpoint trimEnd (s : string) : string :=
  match s with
  | EmptyString => EmptyString
  | String c s' =>
      match trimEnd s' with
      | EmptyString => if is_whitespace c then EmptyString else String c EmptyString
      | t => String c t
      end
  end.

(** [s.trim()] *)
Definition trim (s : string) : string := trimStart (trimEnd s).

(** The value of [c] as a digit in the given radix, if it is one. *)
Definition digit_value (radix : Z) (c : ascii) : option Z :=
  let n := Z.of_nat (nat_of_ascii c) in
  let d := if (48 <=? n)%Z && (n <=? 57)%Z then Some (n - 48)%Z
           else if (97 <=? n)%Z && (n <=? 122)%Z then Some (n - 87)%Z
           else if (65 <=? n)%Z && (n <=? 90)%Z then Some (n - 55)%Z
           else None in
  match d with
  | Some v => if (v <? radix)%Z then Some v else None
  | None => None
  end.

(** The value of the longest prefix of [s] made of digits; [acc] is [None]
    until a digit has been read. *)
Fixpoint parse_digits (radix : Z) (acc : option Z) (s : string) : option Z :=
  match s with
  | EmptyString => acc
  | String c s' =>
      match digit_value radix c with
      | Some d => parse_digits radix (Some (default 0 acc * radix + d)%Z) s'
      | None => acc
      end
  end.

(** [parseInt(s)] with no radix argument: leading white space is skipped, a
    sign is read, a [0x]/[0X] prefix selects radix 16, and the longest run of
    digits is converted; no digit gives [NaN].  The result is the exact
    integer (JavaScript rounds it to a double beyond 2^53). *)
Definition parseInt (s : string) : JsVal :=
  let s1 := trimStart s in
  let '(sign, s2) :=
    match s1 with
    | String "-"%char r => ((-1)%Z, r)
    | String "+"%char r => (1%Z, r)
    | _ => (1%Z, s1)
    end in
  let '(radix, s3) :=
    match s2 with
    | String "0"%char (String "x"%char r) => (16%Z, r)
    | String "0"%char (String "X"%char r) => (16%Z, r)
    | _ => (10%Z, s2)
    end in
  match parse_digits radix None s3 with
  | Some n => JNum (sign * n)
  | None => JNaN
  end.

(** ** Form state *)

Module LoginForm.
Record t := mk { email : string; password : string }.
End LoginForm.

Module RegisterForm.
Record t := mk {
  email : string;
  password : string;
  full_name : string;
  role : string;
  company_name : string;
  phone : string
}.
(** [useState] initial value of [formData]. *)
Definition init : t := mk "" "" "" "candidate" "" "".
(** The object [formData], as passed to [register]. *)
Definition to_js (f : t) : JsVal :=
  JObj [("email", JStr (email f)); ("password", JStr (password f));
        ("full_name", JStr (full_name f)); ("role", JStr (role f));
        ("company_name", JStr (company_name f)); ("phone", JStr (phone f))].
End RegisterForm.

Module JobForm.
Record t := mk {
  title : string;
  company : string;
  location : string;
  salary_min : string;
  salary_max : string;
  description : string;
  requirements : list string;
  job_type : string
}.
Definition init : t := mk "" "" "" "" "" "" [] "full-time".
End JobForm.

(** ** Native form validation

    The forms carry no [noValidate]: pressing a submit button runs the
    browser's constraint validation over the rendered controls, and the
    [onSubmit] handler only runs when every control is valid. *)

Inductive InputType :=
| type_text | type_email | type_password | type_tel | type_number
| type_file | type_select | type_textarea.

Record Input := mkInput {
  input_type : InputType;
  required : bool;
  value : string
}.

Definition is_empty (s : string) : bool :=
  match s with EmptyString => true | String _ _ => false end.

(** ** Sample data, used in the worked examples *)

Definition sample_backend : string := "http://localhost:8001".

(** A stand-in for the browser's e-mail check: the address has an [@]. *)
Fixpoint sample_valid_email (s : string) : bool :=
  match s with
  | EmptyString => false
  | String c s' => Ascii.eqb c "@"%char || sample_valid_email s'
  end.

Definition sample_candidate : JsVal :=
  JObj [("id", JStr "u1"); ("full_name", JStr "Alice"); ("role", JStr "candidate")].

Definition sample_login_response (token : string) (user : JsVal) : JsVal :=
  JObj [("access_token", JStr token); ("user", user)].

(** An axios error for a response with the given [detail]. *)
Definition sample_error (status : Z) (detail : JsVal) : list (string * JsVal) :=
  [("message", JStr "Request failed");
   ("response", JObj [("status", JNum status);
                      ("data", JObj [("detail", detail)])])].

(** An axios error for a call that got no response. *)
Definition network_error : list (string * JsVal) :=
  [("message", JStr "Network Error")].

Definition sample_file : JsVal := JObj [("name", JStr "cv.pdf")].

Definition sample_job : JsVal :=
  JObj [("id", JStr "j1"); ("title", JStr "Engineer"); ("company", JStr "Acme")].

Definition sample_login_form : LoginForm.t := LoginForm.mk "alice@x.com" "pw".

(** * The program *)

Section Program.

(** [process.env.REACT_APP_BACKEND_URL], fixed at build time. *)
Variable BACKEND_URL : string.

(** The browser's syntax check for [<input type="email">]. *)
Variable valid_email : string -> bool.

Definition API : string := BACKEND_URL +:+ "/api".

(** The module's top-level statement
    [axios.defaults.headers.common['Content-Type'] = 'application/json']. *)
Definition initial_headers : gmap string string :=
  {[ "Content-Type" := "application/json" ]}.

(** The page as loaded, before any effect has run. *)
Definition initial (storage : gmap string string) : World :=
  {| browser := mkBrowser storage initial_headers [] [] [];
     auth := AuthState.init;
     login_st := LoginState.init;
     register_st := RegisterState.init;
     candidate := CandidateState.init;
     employer := EmployerState.init |}.

(** ** Constraint validation *)

Definition valueMissing (i : Input) : bool := required i && is_empty (value i).

Definition typeMismatch (i : Input) : bool :=
  match input_type i with
  | type_email => negb (is_empty (value i)) && negb (valid_email (value i))
  | _ => false
  end.

Definition input_valid (i : Input) : bool :=
  negb (valueMissing i) && negb (typeMismatch i).

(** [form.checkValidity()] over the rendered controls. *)
Definition checkValidity (inputs : list Input) : bool := forallb input_valid inputs.

(** ** AuthProvider *)

Definition setUser (v : JsVal) : M unit :=
  modify (upd_auth (fun a => AuthState.mk v (AuthState.loading a))).

Definition setLoading (b : bool) : M unit :=
  modify (upd_auth (fun a => AuthState.mk (AuthState.user a) b)).

(** [localStorage.getItem(k)]: the stored string, or [null]. *)
Definition localStorage_getItem (k : string) : M JsVal :=
  fun w => (w, Normal (match localStorage (browser w) !! k with
                       | Some s => JStr s
                       | None => JNull
                       end)).

Definition fetchUser : M unit :=
  axios_get (API +:+ "/me") KfetchUser.

Definition fetchUser_resume (o : Outcome) : M unit :=
  try_catch_finally
    (data ← await o;
     setUser data)
    (fun error =>
     localStorage_removeItem "token";;
     delete_default_header "Authorization")
    (setLoading false).

(** The effect run once when [AuthProvider] mounts. *)
Definition AuthProvider_useEffect : M unit :=
  token ← localStorage_getItem "token";
  if truthy token then
    set_default_header "Authorization" ("Bearer " +:+ ToString token);;
    fetchUser
  else
    setLoading false.

Definition login (email password : string) : M unit :=
  axios_post (API +:+ "/login")
    (JsonBody (JObj [("email", JStr email); ("password", JStr password)])) ∅ Klogin.

Definition login_resume (o : Outcome) : M JsVal :=
  try_catch
    (data ← await o;
     access_token ← lift (member data "access_token");
     user ← lift (member data "user");
     localStorage_setItem "token" (ToString access_token);;
     set_default_header "Authorization" ("Bearer " +:+ ToString access_token);;
     setUser user;;
     mret (JObj [("success", JBool true)]))
    (fun error =>
     response ← lift (member error "response");
     data ← lift (opt_member response "data");
     detail ← lift (opt_member data "detail");
     mret (JObj [("success", JBool false);
                 ("error", js_or detail (JStr "Login failed"))])).

Definition register (userData : JsVal) : M unit :=
  axios_post (API +:+ "/register") (JsonBody userData) ∅ Kregister.

Definition register_resume (o : Outcome) : M JsVal :=
  try_catch
    (data ← await o;
     access_token ← lift (member data "access_token");
     user ← lift (member data "user");
     localStorage_setItem "token" (ToString access_token);;
     set_default_header "Authorization" ("Bearer " +:+ ToString access_token);;
     setUser user;;
     mret (JObj [("success", JBool true)]))
    (fun error =>
     response ← lift (member error "response");
     data ← lift (opt_member response "data");
     detail ← lift (opt_member data "detail");
     mret (JObj [("success", JBool false);
                 ("error", js_or detail (JStr "Registration failed"))])).

Definition logout : M unit :=
  localStorage_removeItem "token";;
  delete_default_header "Authorization";;
  setUser JNull.

(** ** Login *)

Definition Login_setError (v : JsVal) : M unit :=
  modify (upd_login (fun s => LoginState.mk v (LoginState.showRegister s))).

Definition setShowRegister (b : bool) : M unit :=
  modify (upd_login (fun s => LoginState.mk (LoginState.error s) b)).

Definition Login_inputs (formData : LoginForm.t) : list Input :=
  [ mkInput type_email true (LoginForm.email formData);
    mkInput type_password true (LoginForm.password formData) ].

(** [handleSubmit] up to its [await login(...)]. *)
Definition Login_handleSubmit (formData : LoginForm.t) : M unit :=
  login (LoginForm.email formData) (LoginForm.password formData).

(** The rest of [login], then the rest of [handleSubmit], which awaits it. *)
Definition Login_handleSubmit_resume (o : Outcome) : M unit :=
  result ← login_resume o;
  success ← lift (member result "success");
  if negb (truthy success) then
    error ← lift (member result "error");
    Login_setError error
  else mret tt.

(** ** Register *)

Definition Register_setError (v : JsVal) : M unit :=
  modify (upd_register (fun _ => RegisterState.mk v)).

(** The controls of the registration form, in document order; the company
    name input is rendered only for [formData.role === 'employer']. *)
Definition Register_inputs (formData : RegisterForm.t) : list Input :=
  [ mkInput type_text true (RegisterForm.full_name formData);
    mkInput type_email true (RegisterForm.email formData);
    mkInput type_password true (RegisterForm.password formData);
    mkInput type_tel false (RegisterForm.phone formData);
    mkInput type_select false (RegisterForm.role formData) ] ++
  (if String.eqb (RegisterForm.role formData) "employer"
   then [ mkInput type_text true (RegisterForm.company_name formData) ]
   else []).

Definition Register_handleSubmit (formData : RegisterForm.t) : M unit :=
  register (RegisterForm.to_js formData).

Definition Register_handleSubmit_resume (o : Outcome) : M unit :=
  result ← register_resume o;
  success ← lift (member result "success");
  if negb (truthy success) then
    error ← lift (member result "error");
    Register_setError error
  else mret tt.

(** ** CandidateDashboard *)

Definition Candidate_setJobs (v : JsVal) : M unit :=
  modify (upd_candidate (fun s =>
    CandidateState.mk v (CandidateState.resumes s) (CandidateState.applications s)
      (CandidateState.selectedJob s) (CandidateState.showUploadModal s)
      (CandidateState.showApplicationModal s))).

Definition setResumes (v : JsVal) : M unit :=
  modify (upd_candidate (fun s =>
    CandidateState.mk (CandidateState.jobs s) v (CandidateState.applications s)
      (CandidateState.selectedJob s) (CandidateState.showUploadModal s)
      (CandidateState.showApplicationModal s))).

Definition Candidate_setApplications (v : JsVal) : M unit :=
  modify (upd_candidate (fun s =>
    CandidateState.mk (CandidateState.jobs s) (CandidateState.resumes s) v
      (CandidateState.selectedJob s) (CandidateState.showUploadModal s)
      (CandidateState.showApplicationModal s))).

Definition setSelectedJob (v : JsVal) : M unit :=
  modify (upd_candidate (fun s =>
    CandidateState.mk (CandidateState.jobs s) (CandidateState.resumes s)
      (CandidateState.applications s) v (CandidateState.showUploadModal s)
      (CandidateState.showApplicationModal s))).

Definition setShowUploadModal (b : bool) : M unit :=
  modify (upd_candidate (fun s =>
    CandidateState.mk (CandidateState.jobs s) (CandidateState.resumes s)
      (CandidateState.applications s) (CandidateState.selectedJob s) b
      (CandidateState.showApplicationModal s))).

Definition setShowApplicationModal (b : bool) : M unit :=
  modify (upd_candidate (fun s =>
    CandidateState.mk (CandidateState.jobs s) (CandidateState.resumes s)
      (CandidateState.applications s) (CandidateState.selectedJob s)
      (CandidateState.showUploadModal s) b)).

Definition Candidate_fetchJobs : M unit :=
  axios_get (API +:+ "/jobs") KCandidate_fetchJobs.

Definition Candidate_fetchJobs_resume (o : Outcome) : M unit :=
  try_catch
    (data ← await o;
     Candidate_setJobs data)
    (fun error => console_error "Error fetching jobs:" error).

Definition fetchResumes : M unit :=
  axios_get (API +:+ "/resumes") KCandidate_fetchResumes.

Definition fetchResumes_resume (o : Outcome) : M unit :=
  try_catch
    (data ← await o;
     setResumes data)
    (fun error => console_error "Error fetching resumes:" error).

Definition Candidate_fetchApplications : M unit :=
  axios_get (API +:+ "/applications") KCandidate_fetchApplications.

Definition Candidate_fetchApplications_resume (o : Outcome) : M unit :=
  try_catch
    (data ← await o;
     Candidate_setApplications data)
    (fun error => console_error "Error fetching applications:" error).

(** The effect run when the dashboard mounts. *)
Definition CandidateDashboard_useEffect : M unit :=
  Candidate_fetchJobs;;
  fetchResumes;;
  Candidate_fetchApplications.

(** [handleUploadResume] up to its [await]: the file goes into a fresh
    [FormData] and is posted with a multipart content type. *)
Definition handleUploadResume (file : JsVal) : M unit :=
  axios_post (API +:+ "/resumes/upload") (FormDataBody [("file", file)])
    {[ "Content-Type" := "multipart/form-data" ]} KhandleUploadResume.

(** After the [await]: [fetchResumes()] is called without [await], so its
    request goes out here and its own continuation runs on a later delivery. *)
Definition handleUploadResume_resume (o : Outcome) : M unit :=
  try_catch
    (_ ← await o;
     fetchResumes;;
     setShowUploadModal false)
    (fun error => console_error "Error uploading resume:" error).

Definition handleApplyToJob (jobId resumeId coverLetter : JsVal) : M unit :=
  axios_post (API +:+ "/applications")
    (JsonBody (JObj [("job_id", jobId); ("resume_id", resumeId);
                     ("cover_letter", coverLetter)])) ∅ KhandleApplyToJob.

Definition handleApplyToJob_resume (o : Outcome) : M unit :=
  try_catch
    (_ ← await o;
     Candidate_fetchApplications;;
     setShowApplicationModal false)
    (fun error => console_error "Error applying to job:" error).

(** ** EmployerDashboard *)

Definition Employer_setJobs (v : JsVal) : M unit :=
  modify (upd_employer (fun s =>
    EmployerState.mk v (EmployerState.applications s) (EmployerState.showJobModal s))).

Definition Employer_setApplications (v : JsVal) : M unit :=
  modify (upd_employer (fun s =>
    EmployerState.mk (EmployerState.jobs s) v (EmployerState.showJobModal s))).

Definition setShowJobModal (b : bool) : M unit :=
  modify (upd_employer (fun s =>
    EmployerState.mk (EmployerState.jobs s) (EmployerState.applications s) b)).

Definition Employer_fetchJobs : M unit :=
  axios_get (API +:+ "/jobs") KEmployer_fetchJobs.

Definition Employer_fetchJobs_resume (o : Outcome) : M unit :=
  try_catch
    (data ← await o;
     Employer_setJobs data)
    (fun error => console_error "Error fetching jobs:" error).

Definition Employer_fetchApplications : M unit :=
  axios_get (API +:+ "/applications") KEmployer_fetchApplications.

Definition Employer_fetchApplications_resume (o : Outcome) : M unit :=
  try_catch
    (data ← await o;
     Employer_setApplications data)
    (fun error => console_error "Error fetching applications:" error).

Definition EmployerDashboard_useEffect : M unit :=
  Employer_fetchJobs;;
  Employer_fetchApplications.

Definition handleCreateJob (jobData : JsVal) : M unit :=
  axios_post (API +:+ "/jobs") (JsonBody jobData) ∅ KhandleCreateJob.

Definition handleCreateJob_resume (o : Outcome) : M unit :=
  try_catch
    (_ ← await o;
     Employer_fetchJobs;;
     setShowJobModal false)
    (fun error => console_error "Error creating job:" error).

(** ** Modals *)

(** [UploadModal]'s [handleSubmit]; [onUpload] is [handleUploadResume]. *)
Definition UploadModal_handleSubmit (file : JsVal) : M unit :=
  if truthy file then handleUploadResume file else mret tt.

(** The file control reports a path when a file is chosen, else [""]. *)
Definition UploadModal_inputs (file : JsVal) : list Input :=
  [ mkInput type_file true
      (if truthy file then "C:\fakepath\" +:+ ToString (prop file "name") else "") ].

(** [ApplicationModal]'s [handleSubmit]; [onSubmit] is [handleApplyToJob]. *)
Definition ApplicationModal_handleSubmit (job : JsVal)
    (selectedResume coverLetter : string) : M unit :=
  if truthy (JStr selectedResume) then
    id ← lift (member job "id");
    handleApplyToJob id (JStr selectedResume) (JStr coverLetter)
  else mret tt.

Definition ApplicationModal_inputs (selectedResume coverLetter : string) : list Input :=
  [ mkInput type_select true selectedResume;
    mkInput type_textarea false coverLetter ].

(** [formattedData] of [JobModal]'s [handleSubmit]: the spread of [jobData]
    with three properties overwritten in place. *)
Definition formattedData (jobData : JobForm.t) : JsVal :=
  JObj [ ("title", JStr (JobForm.title jobData));
         ("company", JStr (JobForm.company jobData));
         ("location", JStr (JobForm.location jobData));
         ("salary_min",
           if truthy (JStr (JobForm.salary_min jobData))
           then parseInt (JobForm.salary_min jobData) else JNull);
         ("salary_max",
           if truthy (JStr (JobForm.salary_max jobData))
           then parseInt (JobForm.salary_max jobData) else JNull);
         ("description", JStr (JobForm.description jobData));
         ("requirements",
           JArr (map JStr
             (List.filter (fun req => negb (String.eqb (trim req) ""))
                          (JobForm.requirements jobData))));
         ("job_type", JStr (JobForm.job_type jobData)) ].

(** [JobModal]'s [handleSubmit]; [onSubmit] is [handleCreateJob]. *)
Definition JobModal_handleSubmit (jobData : JobForm.t) : M unit :=
  handleCreateJob (formattedData jobData).

Definition JobModal_inputs (jobData : JobForm.t) : list Input :=
  [ mkInput type_text true (JobForm.title jobData);
    mkInput type_text true (JobForm.company jobData);
    mkInput type_text true (JobForm.location jobData);
    mkInput type_select false (JobForm.job_type jobData);
    mkInput type_number false (JobForm.salary_min jobData);
    mkInput type_number false (JobForm.salary_max jobData);
    mkInput type_textarea true (JobForm.description jobData) ].

(** ** Rendering

    What a component returns is summarised by a [View]: which screen is on
    display and the state it shows. *)

Inductive DashboardView :=
| VCandidateDashboard (jobs resumes applications : JsVal)
    (uploadModal : bool) (applicationModal : option JsVal)
| VEmployerDashboard (jobs applications : JsVal) (jobModal : bool)
| VAdminDashboard.

(** The navigation bar: the greeting with the logout button, or the
    invitation to log in. *)
Inductive NavigationView :=
| VWelcome (full_name : JsVal)
| VPleaseLogIn.

Inductive View :=
| VBlank                                    (* no route matches *)
| VLoading                                  (* "Loading..." *)
| VLogin (error : option JsVal)             (* the sign-in form *)
| VRegister (error : option JsVal)          (* the create-account form *)
| VProtected (navigation : NavigationView) (dashboard : DashboardView).
                                            (* Navigation above a dashboard *)

(** [{error && <div ...>{error}</div>}]: the message element, if rendered. *)
Definition error_element (error : JsVal) : option JsVal :=
  if truthy error then Some error else None.

Definition Register (w : World) : View :=
  VRegister (error_element (RegisterState.error (register_st w))).

Definition Login (w : World) : View :=
  if LoginState.showRegister (login_st w) then Register w
  else VLogin (error_element (LoginState.error (login_st w))).

Definition Navigation (w : World) : NavigationView :=
  if truthy (user w) then VWelcome (prop (user w) "full_name")
  else VPleaseLogIn.

Definition CandidateDashboard (w : World) : DashboardView :=
  let s := candidate w in
  VCandidateDashboard (CandidateState.jobs s) (CandidateState.resumes s)
    (CandidateState.applications s) (CandidateState.showUploadModal s)
    (if CandidateState.showApplicationModal s && truthy (CandidateState.selectedJob s)
     then Some (CandidateState.selectedJob s) else None).

Definition EmployerDashboard (w : World) : DashboardView :=
  let s := employer w in
  VEmployerDashboard (EmployerState.jobs s) (EmployerState.applications s)
    (EmployerState.showJobModal s).

Definition AdminDashboard : DashboardView := VAdminDashboard.

Definition Dashboard (w : World) : DashboardView :=
  if strict_eq_str (prop (user w) "role") "candidate" then CandidateDashboard w
  else if strict_eq_str (prop (user w) "role") "employer" then EmployerDashboard w
  else AdminDashboard.

Definition ProtectedRoute (w : World) (children : View) : View :=
  if loading w then VLoading
  else if negb (truthy (user w)) then Login w
  else children.

(** [App]: the two routes.  [path] is the location as the router matches
    it, without trailing slash. *)
Definition App (path : string) (w : World) : View :=
  if String.eqb path "/login" then Login w
  else if String.eqb path "/" then
    ProtectedRoute w (VProtected (Navigation w) (Dashboard w))
  else VBlank.


Definition authenticated (w : World) : bool := truthy (user w).

(** ** Events *)

Inductive Event :=
| Deliver (id : nat) (o : Outcome)          (* a response arrives *)
| Login_submit (formData : LoginForm.t)
| Login_clickSignUp
| Register_onBack
| Register_submit (formData : RegisterForm.t)
| Navigation_clickLogout
| CandidateDashboard_mount
| Candidate_clickUploadResume
| UploadModal_onClose
| UploadModal_submit (file : JsVal)
| Candidate_clickApplyNow (i : nat)         (* on the i-th job card *)
| ApplicationModal_onClose
| ApplicationModal_submit (selectedResume coverLetter : string)
| EmployerDashboard_mount
| Employer_clickPostNewJob
| JobModal_onClose
| JobModal_submit (jobData : JobForm.t).

(** The continuation of each suspended function. *)
Definition resume (k : Cont) (o : Outcome) : M unit :=
  match k with
  | KfetchUser => fetchUser_resume o
  | Klogin => Login_handleSubmit_resume o
  | Kregister => Register_handleSubmit_resume o
  | KCandidate_fetchJobs => Candidate_fetchJobs_resume o
  | KCandidate_fetchResumes => fetchResumes_resume o
  | KCandidate_fetchApplications => Candidate_fetchApplications_resume o
  | KhandleUploadResume => handleUploadResume_resume o
  | KhandleApplyToJob => handleApplyToJob_resume o
  | KEmployer_fetchJobs => Employer_fetchJobs_resume o
  | KEmployer_fetchApplications => Employer_fetchApplications_resume o
  | KhandleCreateJob => handleCreateJob_resume o
  end.

Fixpoint take_pending (id : nat) (l : list (nat * Cont))
    : option (Cont * list (nat * Cont)) :=
  match l with
  | [] => None
  | (i, k) :: l' =>
      if Nat.eqb i id then Some (k, l')
      else match take_pending id l' with
           | Some (k', r) => Some (k', (i, k) :: r)
           | None => None
           end
  end.

Definition set_pending (p : list (nat * Cont)) (w : World) : World :=
  upd_browser (fun b =>
    mkBrowser (localStorage b) (axios_defaults b) (network b) p (console b)) w.

(** The response to request [id] arrives: the function awaiting it resumes.
    A response nobody awaits (any more) is dropped.  A function suspended in
    a component that has been unmounted in the meantime still resumes, as in
    the browser; its state updates then land in the component's present
    state cells, which [unmount] clears while the component is off screen. *)
Definition deliver (id : nat) (o : Outcome) : M unit :=
  fun w => match take_pending id (pending (browser w)) with
           | Some (k, rest) => resume k o (set_pending rest w)
           | None => (w, Normal tt)
           end.

(** The i-th element of [jobs], as [jobs.map] hands it to the job card. *)
Definition nth_item (v : JsVal) (i : nat) : option JsVal :=
  match v with JArr items => items !! i | _ => None end.

(** What each event runs. *)
Definition handler (ev : Event) : M unit :=
  match ev with
  | Deliver id o => deliver id o
  | Login_submit formData => Login_handleSubmit formData
  | Login_clickSignUp => setShowRegister true
  | Register_onBack => setShowRegister false
  | Register_submit formData => Register_handleSubmit formData
  | Navigation_clickLogout => logout
  | CandidateDashboard_mount => CandidateDashboard_useEffect
  | Candidate_clickUploadResume => setShowUploadModal true
  | UploadModal_onClose => setShowUploadModal false
  | UploadModal_submit file => UploadModal_handleSubmit file
  | Candidate_clickApplyNow i =>
      fun w => match nth_item (CandidateState.jobs (candidate w)) i with
               | Some job => (setSelectedJob job;; setShowApplicationModal true) w
               | None => (w, Normal tt)
               end
  | ApplicationModal_onClose => setShowApplicationModal false
  | ApplicationModal_submit selectedResume coverLetter =>
      fun w => ApplicationModal_handleSubmit
                 (CandidateState.selectedJob (candidate w))
                 selectedResume coverLetter w
  | EmployerDashboard_mount => EmployerDashboard_useEffect
  | Employer_clickPostNewJob => setShowJobModal true
  | JobModal_onClose => setShowJobModal false
  | JobModal_submit jobData => JobModal_handleSubmit jobData
  end.

(** An event can occur when the control that raises it is on screen and,
    for a submit, when the form passes validation.  Responses can arrive at
    any time, in any order.  The mount effects of the dashboards are events
    of their own, possible whenever the dashboard is on screen. *)
Definition enabled (path : string) (ev : Event) (w : World) : bool :=
  match ev, App path w with
  | Deliver _ _, _ => true
  | Login_submit formData, VLogin _ => checkValidity (Login_inputs formData)
  | Login_clickSignUp, VLogin _ => true
  | Register_onBack, VRegister _ => true
  | Register_submit formData, VRegister _ => checkValidity (Register_inputs formData)
  | Navigation_clickLogout, VProtected (VWelcome _) _ => true
  | CandidateDashboard_mount, VProtected _ (VCandidateDashboard _ _ _ _ _) => true
  | Candidate_clickUploadResume, VProtected _ (VCandidateDashboard _ _ _ _ _) => true
  | UploadModal_onClose, VProtected _ (VCandidateDashboard _ _ _ true _) => true
  | UploadModal_submit file, VProtected _ (VCandidateDashboard _ _ _ true _) =>
      checkValidity (UploadModal_inputs file)
  | Candidate_clickApplyNow _, VProtected _ (VCandidateDashboard _ _ _ _ _) => true
  | ApplicationModal_onClose, VProtected _ (VCandidateDashboard _ _ _ _ (Some _)) => true
  | ApplicationModal_submit r c, VProtected _ (VCandidateDashboard _ _ _ _ (Some _)) =>
      checkValidity (ApplicationModal_inputs r c)
  | EmployerDashboard_mount, VProtected _ (VEmployerDashboard _ _ _) => true
  | Employer_clickPostNewJob, VProtected _ (VEmployerDashboard _ _ _) => true
  | JobModal_onClose, VProtected _ (VEmployerDashboard _ _ true) => true
  | JobModal_submit jobData, VProtected _ (VEmployerDashboard _ _ true) =>
      checkValidity (JobModal_inputs jobData)
  | _, _ => false
  end.

(** A component that is not rendered is unmounted and its state is gone:
    mounting it again starts from the [useState] initial values. *)
Definition unmount (path : string) (w : World) : World :=
  let v := App path w in
  {| browser := browser w;
     auth := auth w;
     login_st :=
       match v with
       | VLogin _ | VRegister _ => login_st w
       | _ => LoginState.init
       end;
     register_st :=
       match v with
       | VRegister _ => register_st w
       | _ => RegisterState.init
       end;
     candidate :=
       match v with
       | VProtected _ (VCandidateDashboard _ _ _ _ _) => candidate w
       | _ => CandidateState.init
       end;
     employer :=
       match v with
       | VProtected _ (VEmployerDashboard _ _ _) => employer w
       | _ => EmployerState.init
       end |}.

(** One reaction of the page at location [path]. *)
Definition step (path : string) (ev : Event) (w : World) : World :=
  if enabled path ev w then unmount path (exec (handler ev) w) else w.

Fixpoint run (path : string) (evs : list Event) (w : World) : World :=
  match evs with
  | [] => w
  | ev :: evs' => run path evs' (step path ev w)
  end.

(** Loading the page: a fresh JavaScript heap over the persisted storage,
    then [AuthProvider]'s effect. *)
Definition boot (storage : gmap string string) : World :=
  exec AuthProvider_useEffect (initial storage).

(** Reloading the page keeps [localStorage] and nothing else. *)
Definition reload (w : World) : World := boot (localStorage (browser w)).

(** [error.response?.data?.detail]: the detail field of a failed response. *)
Definition detail (error : list (string * JsVal)) : JsVal :=
  prop (prop (prop (JObj error) "response") "data") "detail".






(** The request carries [auth] as its [Authorization] header. *)
Definition carries (auth : option string) (r : Request) : Prop :=
  req_headers r !! "Authorization" = auth.

(** The user's role, as [Dashboard] reads it. *)
Definition role (w : World) : JsVal := prop (user w) "role".


(** The three mutating actions of the dashboards, with the function
    suspended on the mutation, the collection it affects, the function that
    re-fetches it and the modal the action was started from. *)
Inductive Mutation := UploadResume | ApplyToJob | CreateJob.

Definition mutation_cont (m : Mutation) : Cont :=
  match m with
  | UploadResume => KhandleUploadResume
  | ApplyToJob => KhandleApplyToJob
  | CreateJob => KhandleCreateJob
  end.

Definition refetch_cont (m : Mutation) : Cont :=
  match m with
  | UploadResume => KCandidate_fetchResumes
  | ApplyToJob => KCandidate_fetchApplications
  | CreateJob => KEmployer_fetchJobs
  end.

Definition refetch_url (m : Mutation) : string :=
  match m with
  | UploadResume => API +:+ "/resumes"
  | ApplyToJob => API +:+ "/applications"
  | CreateJob => API +:+ "/jobs"
  end.

Definition collection (m : Mutation) (w : World) : JsVal :=
  match m with
  | UploadResume => CandidateState.resumes (candidate w)
  | ApplyToJob => CandidateState.applications (candidate w)
  | CreateJob => EmployerState.jobs (employer w)
  end.

Definition modal_open (m : Mutation) (w : World) : bool :=
  match m with
  | UploadResume => CandidateState.showUploadModal (candidate w)
  | ApplyToJob => CandidateState.showApplicationModal (candidate w)
  | CreateJob => EmployerState.showJobModal (employer w)
  end.

(** ** Further components: form editing and the job card *)

(** The fields of the registration form. *)
Inductive RegisterField :=
| Field_full_name | Field_email | Field_password
| Field_phone | Field_role | Field_company_name.

(** The [onChange] handlers of the registration form:
    [setFormData({ ...formData, field: e.target.value })]. *)
Definition Register_onChange (field : RegisterField) (v : string)
    (formData : RegisterForm.t) : RegisterForm.t :=
  let f := formData in
  match field with
  | Field_full_name =>
      RegisterForm.mk (RegisterForm.email f) (RegisterForm.password f) v
        (RegisterForm.role f) (RegisterForm.company_name f) (RegisterForm.phone f)
  | Field_email =>
      RegisterForm.mk v (RegisterForm.password f) (RegisterForm.full_name f)
        (RegisterForm.role f) (RegisterForm.company_name f) (RegisterForm.phone f)
  | Field_password =>
      RegisterForm.mk (RegisterForm.email f) v (RegisterForm.full_name f)
        (RegisterForm.role f) (RegisterForm.company_name f) (RegisterForm.phone f)
  | Field_phone =>
      RegisterForm.mk (RegisterForm.email f) (RegisterForm.password f)
        (RegisterForm.full_name f) (RegisterForm.role f)
        (RegisterForm.company_name f) v
  | Field_role =>
      RegisterForm.mk (RegisterForm.email f) (RegisterForm.password f)
        (RegisterForm.full_name f) v (RegisterForm.company_name f)
        (RegisterForm.phone f)
  | Field_company_name =>
      RegisterForm.mk (RegisterForm.email f) (RegisterForm.password f)
        (RegisterForm.full_name f) (RegisterForm.role f) v (RegisterForm.phone f)
  end.

(** The [value] each control of the registration form displays. *)
Definition Register_value (field : RegisterField) (formData : RegisterForm.t) : string :=
  match field with
  | Field_full_name => RegisterForm.full_name formData
  | Field_email => RegisterForm.email formData
  | Field_password => RegisterForm.password formData
  | Field_phone => RegisterForm.phone formData
  | Field_role => RegisterForm.role formData
  | Field_company_name => RegisterForm.company_name formData
  end.

(** A control can only be edited while it is rendered: the company name
    input exists for role ["employer"] only. *)
Definition Register_rendered (field : RegisterField) (formData : RegisterForm.t) : bool :=
  match field with
  | Field_company_name => String.eqb (RegisterForm.role formData) "employer"
  | _ => true
  end.

(** A sequence of edits, starting from the given form state. *)
Fixpoint Register_edits (edits : list (RegisterField * string))
    (formData : RegisterForm.t) : RegisterForm.t :=
  match edits with
  | [] => formData
  | (field, v) :: edits' =>
      Register_edits edits'
        (if Register_rendered field formData
         then Register_onChange field v formData else formData)
  end.

(** What React puts on screen for an expression in braces. *)
Inductive Child :=
| ChildNothing                               (* null, undefined, true, false *)
| ChildText (s : string)                     (* a string or a number *)
| ChildSalaryRange (salary_min salary_max : JsVal).
                         (* the paragraph "$min - $max" of the job card *)

(** Arrays and objects are truthy and never reach this function from
    [salary_line]; they are given no rendering here. *)
Definition render_value (v : JsVal) : Child :=
  match v with
  | JUndefined | JNull | JBool _ => ChildNothing
  | JNum _ | JNaN | JStr _ => ChildText (ToString v)
  | JArr _ | JObj _ => ChildNothing
  end.

(** The salary line of a job card on the candidate dashboard:
    [{job.salary_min && job.salary_max && (<p>...</p>)}].  The expression is
    the first falsy operand, or the paragraph. *)
Definition salary_line (job : JsVal) : Child :=
  let salary_min := prop job "salary_min" in
  let salary_max := prop job "salary_max" in
  if truthy salary_min then
    if truthy salary_max then ChildSalaryRange salary_min salary_max
    else render_value salary_max
  else render_value salary_min.

(** ** Further notions used in the properties *)

(** The functions of the session store. *)
Definition session_cont (k : Cont) : bool :=
  match k with
  | KfetchUser | Klogin | Kregister => true
  | _ => false
  end.

(** The five collection fetches. *)
Definition fetch_cont (k : Cont) : bool :=
  match k with
  | KCandidate_fetchJobs | KCandidate_fetchResumes
  | KCandidate_fetchApplications
  | KEmployer_fetchJobs | KEmployer_fetchApplications => true
  | _ => false
  end.

(** The events that belong to the session store: the logout button and
    the arrival of a response awaited by [fetchUser], [login] or
    [register]. *)
Definition session_event (ev : Event) (w : World) : bool :=
  match ev with
  | Navigation_clickLogout => true
  | Deliver id _ =>
      match take_pending id (pending (browser w)) with
      | Some (k, _) => session_cont k
      | None => false
      end
  | _ => false
  end.

(** The calls the file makes. *)
Definition endpoints : list (Method * string) :=
  [ (GET, API +:+ "/me");
    (POST, API +:+ "/login");
    (POST, API +:+ "/register");
    (GET, API +:+ "/jobs");
    (POST, API +:+ "/jobs");
    (GET, API +:+ "/resumes");
    (POST, API +:+ "/resumes/upload");
    (GET, API +:+ "/applications");
    (POST, API +:+ "/applications") ].

Definition known_endpoint (r : Request) : Prop :=
  (req_method r, req_url r) ∈ endpoints ∧
  (req_method r = GET → req_body r = NoBody).



(** Which dashboard a screen holds. *)
Definition Candidate_mounted (v : View) : bool :=
  match v with
  | VProtected _ (VCandidateDashboard _ _ _ _ _) => true
  | _ => false
  end.

Definition Employer_mounted (v : View) : bool :=
  match v with
  | VProtected _ (VEmployerDashboard _ _ _) => true
  | _ => false
  end.

(** The dashboard as it is right after mounting, for a given user. *)
Definition fresh_dashboard (user : JsVal) : DashboardView :=
  if strict_eq_str (prop user "role") "candidate" then
    VCandidateDashboard (JArr []) (JArr []) (JArr []) false None
  else if strict_eq_str (prop user "role") "employer" then
    VEmployerDashboard (JArr []) (JArr []) false
  else VAdminDashboard.

(** ** Sample runs, used in the worked examples below *)

(** A candidate signs in on the root route with nothing in storage; the
    dashboard mounts and its three collections arrive. *)
Definition candidate_signs_in : list Event :=
  [ Login_submit sample_login_form;
    Deliver 0 (Resolved (sample_login_response "t1" sample_candidate));
    CandidateDashboard_mount;
    Deliver 1 (Resolved (JArr [sample_job]));
    Deliver 2 (Resolved (JArr []));
    Deliver 3 (Resolved (JArr [])) ].

Definition candidate_session : World := run "/" candidate_signs_in (boot ∅).

(** The candidate has chosen a file in the upload modal and pressed
    "Upload": request 4 is in flight. *)
Definition upload_in_flight : World :=
  run "/" [Candidate_clickUploadResume; UploadModal_submit sample_file]
    candidate_session.

(** The candidate has pressed "Apply Now" on the first job. *)
Definition application_modal_open : World :=
  step "/" (Candidate_clickApplyNow 0) candidate_session.

(** The candidate has just signed in: the dashboard has mounted and its
    three fetches (requests 1, 2 and 3) are in flight. *)
Definition candidate_mounting : World :=
  run "/" [ Login_submit sample_login_form;
            Deliver 0 (Resolved (sample_login_response "t1" sample_candidate));
            CandidateDashboard_mount ] (boot ∅).


(** A sign-in on the [/login] route has been rejected. *)
Definition login_rejected : World :=
  run "/login"
    [ Login_submit sample_login_form;
      Deliver 0 (Rejected (sample_error 401 (JStr "Incorrect email or password"))) ]
    (boot ∅).


(** * Properties *)

(** ** Basic facts *)

(** Unfolding of the monad's operations. *)
Ltac munfold :=
  cbv beta iota delta
    [mbind mret M_bind M_ret bind ret lift throw modify try_catch
     try_catch_finally await exec completion fst snd
     upd_browser upd_auth upd_login upd_register upd_candidate upd_employer
     set_pending].

Ltac msimpl := repeat (munfold; cbn).

(** The handlers, for unfolding in proofs by computation. *)
Create HintDb handlers discriminated.
#[local] Hint Unfold
  step handler deliver resume
  localStorage_setItem localStorage_removeItem localStorage_getItem
  set_default_header delete_default_header console_error
  axios_request axios_get axios_post
  setUser setLoading fetchUser fetchUser_resume AuthProvider_useEffect
  login login_resume register register_resume logout
  Login_setError setShowRegister Login_handleSubmit Login_handleSubmit_resume
  Register_setError Register_handleSubmit Register_handleSubmit_resume
  Candidate_setJobs setResumes Candidate_setApplications setSelectedJob
  setShowUploadModal setShowApplicationModal
  Candidate_fetchJobs Candidate_fetchJobs_resume fetchResumes fetchResumes_resume
  Candidate_fetchApplications Candidate_fetchApplications_resume
  CandidateDashboard_useEffect handleUploadResume handleUploadResume_resume
  handleApplyToJob handleApplyToJob_resume
  Employer_setJobs Employer_setApplications setShowJobModal
  Employer_fetchJobs Employer_fetchJobs_resume
  Employer_fetchApplications Employer_fetchApplications_resume
  EmployerDashboard_useEffect handleCreateJob handleCreateJob_resume
  UploadModal_handleSubmit ApplicationModal_handleSubmit JobModal_handleSubmit
  : handlers.

Ltac hsimpl := repeat (autounfold with handlers; msimpl).

Lemma opt_member_prop v k : opt_member v k = Normal (prop v k).
Proof. by destruct v. Qed.

Lemma member_prop v k : nullish v = false → member v k = Normal (prop v k).
Proof. by destruct v. Qed.

Lemma browser_unmount path w : browser (unmount path w) = browser w.
Proof. reflexivity. Qed.

Lemma truthy_JStr s : truthy (JStr s) = negb (is_empty s).
Proof. by destruct s. Qed.

(** ** Login and register *)

(** C1.  [login] and [register], resumed with the response.  A resolved
    response with a body stores the returned access token under ["token"],
    sets the default [Authorization] header to ["Bearer " + token], sets the
    user and answers [{success: true}].  A rejected call leaves the whole
    state as it was and answers [{success: false, error}] where [error] is
    the response's [detail] if that is truthy and the generic message
    otherwise.  (A resolved response without any body cannot be
    destructured: the [TypeError] lands in the same [catch] and is answered
    with the generic message.) *)
Theorem login_register_result (w : World) :
  (∀ data, nullish data = false →
     ∃ w',
       login_resume (Resolved data) w = (w', Normal (JObj [("success", JBool true)])) ∧
       register_resume (Resolved data) w = (w', Normal (JObj [("success", JBool true)])) ∧
       token w' = Some (ToString (prop data "access_token")) ∧
       authorization w' = Some ("Bearer " +:+ ToString (prop data "access_token")) ∧
       user w' = prop data "user" ∧
       authenticated w' = truthy (prop data "user")) ∧
  (∀ error,
     login_resume (Rejected error) w =
       (w, Normal (JObj [("success", JBool false);
                         ("error", js_or (detail error) (JStr "Login failed"))])) ∧
     register_resume (Rejected error) w =
       (w, Normal (JObj [("success", JBool false);
                         ("error", js_or (detail error) (JStr "Registration failed"))])) ∧
     (∀ s generic, detail error = JStr s → s ≠ "" →
        js_or (detail error) (JStr generic) = JStr s) ∧
     (∀ generic, detail error = JUndefined →
        js_or (detail error) (JStr generic) = JStr generic)) ∧
  (∀ data, nullish data = true →
     login_resume (Resolved data) w =
       (w, Normal (JObj [("success", JBool false);
                         ("error", JStr "Login failed")])) ∧
     register_resume (Resolved data) w =
       (w, Normal (JObj [("success", JBool false);
                         ("error", JStr "Registration failed")]))).
Proof.
  split; [|split].
  - intros data Hdata.
    unfold login_resume, register_resume, prop.
    destruct data; try discriminate Hdata; msimpl; eexists;
      (split; [reflexivity|]); (split; [reflexivity|]);
      unfold token, authorization, user, authenticated; cbn;
      rewrite !lookup_insert_eq; auto.
  - intros error. unfold login_resume, register_resume, detail.
    msimpl. rewrite !opt_member_prop. repeat split.
    + intros s generic -> Hs. destruct s; [done | reflexivity].
    + intros generic ->. reflexivity.
  - intros data Hdata. by destruct data.
Qed.

(** ** Session restore *)

Lemma boot_token storage t :
  storage !! "token" = Some t → t ≠ "" →
  boot storage =
    {| browser :=
         mkBrowser storage (<["Authorization" := "Bearer " +:+ t]> initial_headers)
           [mkRequest GET (API +:+ "/me")
              (<["Authorization" := "Bearer " +:+ t]> initial_headers) NoBody]
           [(0, KfetchUser)] [];
       auth := AuthState.init;
       login_st := LoginState.init;
       register_st := RegisterState.init;
       candidate := CandidateState.init;
       employer := EmployerState.init |}.
Proof.
  intros Ht Hne. unfold boot, AuthProvider_useEffect, localStorage_getItem.
  msimpl. rewrite Ht. destruct t as [|c t]; [done|]. msimpl.
  unfold fetchUser, axios_get, axios_request, set_default_header, initial.
  msimpl. by rewrite (left_id_L ∅ (∪)).
Qed.

Lemma boot_no_token storage :
  storage !! "token" = None ∨ storage !! "token" = Some "" →
  boot storage =
    {| browser := mkBrowser storage initial_headers [] [] [];
       auth := AuthState.mk JNull false;
       login_st := LoginState.init;
       register_st := RegisterState.init;
       candidate := CandidateState.init;
       employer := EmployerState.init |}.
Proof.
  intros Ht. unfold boot, AuthProvider_useEffect, localStorage_getItem.
  msimpl. by destruct Ht as [-> | ->].
Qed.

(** C2.  Start-up.  With a non-empty token [t] in storage, the effect sets
    the default header to ["Bearer " + t] and issues exactly one request,
    [GET /me], carrying it; the session stays in its loading state.  When
    that request resolves the user is the response body and loading ends;
    when it is rejected the token is removed from storage, the header is
    deleted, the user stays [null], and no further request is made.  With
    no token in storage (or an empty one) nothing is requested and the
    session is unauthenticated at once. *)
Theorem session_restore (storage : gmap string string) (path : string) :
  (∀ t, storage !! "token" = Some t → t ≠ "" →
     let w := boot storage in
     authorization w = Some ("Bearer " +:+ t) ∧
     network (browser w) =
       [mkRequest GET (API +:+ "/me")
          (<["Authorization" := "Bearer " +:+ t]> initial_headers) NoBody] ∧
     pending (browser w) = [(0, KfetchUser)] ∧
     loading w = true ∧ authenticated w = false ∧
     (∀ data,
        let w' := step path (Deliver 0 (Resolved data)) w in
        user w' = data ∧ authenticated w' = truthy data ∧ loading w' = false ∧
        token w' = Some t ∧ authorization w' = Some ("Bearer " +:+ t) ∧
        network (browser w') = network (browser w) ∧
        pending (browser w') = []) ∧
     (∀ error,
        let w' := step path (Deliver 0 (Rejected error)) w in
        token w' = None ∧ authorization w' = None ∧
        user w' = JNull ∧ authenticated w' = false ∧ loading w' = false ∧
        network (browser w') = network (browser w) ∧
        pending (browser w') = [] ∧ console (browser w') = [])) ∧
  (storage !! "token" = None ∨ storage !! "token" = Some "" →
     let w := boot storage in
     network (browser w) = [] ∧ pending (browser w) = [] ∧
     authorization w = None ∧
     user w = JNull ∧ authenticated w = false ∧ loading w = false).
Proof.
  split.
  - intros t Ht Hne w. subst w. rewrite (boot_token _ _ Ht Hne).
    unfold authorization, token, user, loading, authenticated.
    repeat split; hsimpl;
      rewrite ?Ht, ?lookup_insert_eq, ?lookup_delete_eq; done.
  - intros Ht w. subst w. rewrite (boot_no_token _ Ht).
    repeat split.
Qed.

(** ** Failed calls *)

Lemma truthy_js_or_generic d c g : truthy (js_or d (JStr (String c g))) = true.
Proof. unfold js_or. by destruct (truthy d) eqn:E. Qed.


(** ** The bearer token *)


Lemma carries_default (d : gmap string string) r :
  req_headers r = ∅ ∪ d → carries (d !! "Authorization") r.
Proof. unfold carries. intros ->. by rewrite (left_id_L ∅ (∪)). Qed.

Lemma carries_multipart (d : gmap string string) r :
  req_headers r = {[ "Content-Type" := "multipart/form-data" ]} ∪ d →
  carries (d !! "Authorization") r.
Proof.
  unfold carries. intros ->. by rewrite lookup_union_r.
Qed.

(** Every request an event sends carries the default [Authorization]
    header as it stood when the event occurred. *)
Lemma handler_requests (ev : Event) (w : World) :
  ∃ new,
    network (browser (exec (handler ev) w)) = (network (browser w) ++ new)%list ∧
    Forall (carries (authorization w)) new.
Proof.
  unfold authorization.
  pose (no_new := λ l : list Request, eq_sym (app_nil_r l)).
  destruct ev as [id o| | | | | | | | |file|i| |r c| | | |jobData]; hsimpl;
    try (exists []; split; [apply no_new | apply Forall_nil_2]).
  - destruct (take_pending id (pending (browser w))) as [[k rest]|].
    2:{ exists []. split; [apply no_new | apply Forall_nil_2]. }
    destruct k, o as [data|error]; hsimpl; rewrite ?opt_member_prop; hsimpl.
    all: try (exists []; split; [apply no_new | apply Forall_nil_2]).
    all: try (eexists [_]; split; [reflexivity|];
              repeat constructor; by apply carries_default).
    all: destruct data; hsimpl; rewrite ?opt_member_prop; hsimpl.
    all: exists []; split; [apply no_new | apply Forall_nil_2].
  - eexists [_]; split; [reflexivity|]. repeat constructor. by apply carries_default.
  - eexists [_]; split; [reflexivity|]. repeat constructor. by apply carries_default.
  - rewrite <- !app_assoc. eexists [_; _; _]; split; [reflexivity|].
    repeat constructor; by apply carries_default.
  - destruct (truthy file); hsimpl.
    + eexists [_]; split; [reflexivity|]. repeat constructor.
      by apply carries_multipart.
    + exists []; split; [apply no_new | apply Forall_nil_2].
  - destruct (nth_item _ i); hsimpl.
    all: exists []; split; [apply no_new | apply Forall_nil_2].
  - destruct r; hsimpl; [exists []; split; [apply no_new | apply Forall_nil_2]|].
    destruct (member _ "id"); hsimpl.
    + eexists [_]; split; [reflexivity|]. repeat constructor. by apply carries_default.
    + exists []; split; [apply no_new | apply Forall_nil_2].
  - rewrite <- !app_assoc. eexists [_; _]; split; [reflexivity|].
    repeat constructor; by apply carries_default.
  - eexists [_]; split; [reflexivity|]. repeat constructor. by apply carries_default.
Qed.








Lemma step_requests path ev w :
  ∃ new,
    network (browser (step path ev w)) = (network (browser w) ++ new)%list ∧
    Forall (carries (authorization w)) new.
Proof.
  unfold step. destruct (enabled path ev w).
  - rewrite browser_unmount. apply handler_requests.
  - exists []. split; [by rewrite app_nil_r | apply Forall_nil_2].
Qed.


(** ** Logout *)

Lemma unmount_idem path w : unmount path (unmount path w) = unmount path w.
Proof.
  unfold unmount, App, ProtectedRoute, Login, Register, Dashboard,
    CandidateDashboard, EmployerDashboard, AdminDashboard, loading, user.
  cbn.
  destruct (String.eqb path "/login"), (String.eqb path "/"),
    (AuthState.loading (auth w)), (truthy (AuthState.user (auth w))),
    (LoginState.showRegister (login_st w)) eqn:Hs,
    (strict_eq_str (prop (AuthState.user (auth w)) "role") "candidate"),
    (strict_eq_str (prop (AuthState.user (auth w)) "role") "employer");
    cbn; rewrite ?Hs; reflexivity.
Qed.

Lemma boot_clean path storage : unmount path (boot storage) = boot storage.
Proof.
  destruct (storage !! "token") as [t|] eqn:Ht.
  - destruct (decide (t = "")) as [->|Hne].
    + rewrite boot_no_token by auto. unfold unmount, App. cbn.
      by destruct (String.eqb path "/login"), (String.eqb path "/").
    + rewrite (boot_token _ _ Ht Hne). unfold unmount, App. cbn.
      by destruct (String.eqb path "/login"), (String.eqb path "/").
  - rewrite boot_no_token by auto. unfold unmount, App. cbn.
    by destruct (String.eqb path "/login"), (String.eqb path "/").
Qed.

Lemma step_clean path ev w :
  unmount path w = w → unmount path (step path ev w) = step path ev w.
Proof.
  intros Hw. unfold step. destruct (enabled path ev w); [|done].
  apply unmount_idem.
Qed.

Lemma run_clean path evs w :
  unmount path w = w → unmount path (run path evs w) = run path evs w.
Proof.
  revert w. induction evs as [|ev evs IH]; intros w Hw; [done|].
  cbn. apply IH. by apply step_clean.
Qed.

(** C5.  In any state the page reaches on the root route in which the
    logout button is on screen (a dashboard is shown), pressing it removes
    the token from storage, deletes the default [Authorization] header and
    sets the user to [null]; the root route then renders the sign-in form,
    and so does a reload of the page, which finds no token and sends no
    request. *)
Theorem logout_clears_session (storage : gmap string string)
    (evs : list Event) (name : JsVal) (d : DashboardView) :
  let w := run "/" evs (boot storage) in
  App "/" w = VProtected (VWelcome name) d →
  let w' := step "/" Navigation_clickLogout w in
  token w' = None ∧ authorization w' = None ∧ user w' = JNull ∧
  authenticated w' = false ∧
  App "/" w' = VLogin None ∧
  App "/" (reload w') = VLogin None ∧
  authenticated (reload w') = false ∧
  network (browser (reload w')) = [].
Proof.
  intros w Hv w'.
  assert (Hclean : unmount "/" w = w) by apply run_clean, boot_clean.
  assert (Hl : loading w = false).
  { revert Hv. unfold App, ProtectedRoute. cbn. by destruct (loading w). }
  assert (Hlogin : login_st w = LoginState.init).
  { rewrite <- Hclean. unfold unmount. by rewrite Hv. }
  assert (Hw' : w' = unmount "/" (exec logout w)).
  { subst w'. unfold step, enabled. by rewrite Hv. }
  assert (Ht : token w' = None).
  { rewrite Hw'. unfold token. hsimpl. by rewrite lookup_delete_eq. }
  assert (Hview : App "/" w' = VLogin None).
  { rewrite Hw'. unfold loading in Hl.
    unfold unmount, App, ProtectedRoute, Login, loading, user.
    hsimpl. by rewrite Hl, Hlogin. }
  repeat split; try done.
  - rewrite Hw'. unfold authorization. hsimpl. by rewrite lookup_delete_eq.
  - by rewrite Hw'.
  - by rewrite Hw'.
  - unfold reload. by rewrite boot_no_token by (left; exact Ht).
  - unfold reload. by rewrite boot_no_token by (left; exact Ht).
  - unfold reload. by rewrite boot_no_token by (left; exact Ht).
Qed.

(** ** The registration form *)

Lemma is_empty_false s : is_empty s = false ↔ s ≠ "".
Proof. destruct s; cbn; split; congruence. Qed.

(** C6.  With the registration form on screen, it can be submitted exactly
    when the name, e-mail and password are filled in (and the e-mail is
    well-formed) and, if the selected role is ["employer"], the company name
    is not empty.  For any other role, ["candidate"] in particular, the
    company name plays no part. *)
Theorem register_submit_allowed (path : string) (w : World)
    (e : option JsVal) (f : RegisterForm.t) :
  App path w = VRegister e →
  (enabled path (Register_submit f) w = true ↔
   RegisterForm.full_name f ≠ "" ∧
   RegisterForm.email f ≠ "" ∧ valid_email (RegisterForm.email f) = true ∧
   RegisterForm.password f ≠ "" ∧
   (RegisterForm.role f = "employer" → RegisterForm.company_name f ≠ "")).
Proof using valid_email.
  clear BACKEND_URL. intros Hv. unfold enabled. rewrite Hv.
  unfold checkValidity, Register_inputs.
  rewrite forallb_app. cbn -[String.eqb].
  unfold input_valid, valueMissing, typeMismatch. cbn -[String.eqb].
  rewrite !andb_true_r, <- !is_empty_false.
  destruct (String.eqb_spec (RegisterForm.role f) "employer") as [Hr|Hr];
    cbn; unfold input_valid, valueMissing, typeMismatch; cbn;
    destruct (is_empty (RegisterForm.full_name f)),
             (is_empty (RegisterForm.email f)),
             (valid_email (RegisterForm.email f)),
             (is_empty (RegisterForm.password f)),
             (is_empty (RegisterForm.company_name f)); cbn;
    intuition congruence.
Qed.

(** ** The route guard *)

Lemma strict_eq_str_true v lit : strict_eq_str v lit = true ↔ v = JStr lit.
Proof.
  destruct v; cbn; try (split; congruence).
  rewrite String.eqb_eq. split; congruence.
Qed.

(** C8.  On the root route: the loading screen is shown as long as
    [loading] holds, which is from the first render until the response to
    the restore request (if one was sent); after that a session without
    user gets the [Login] component and a session with a user gets the
    navigation bar over a dashboard, which is the candidate dashboard
    exactly for role ["candidate"], the employer dashboard exactly for role
    ["employer"], and the admin dashboard in every other case. *)
Theorem route_guard (w : World) :
  (loading w = true → App "/" w = VLoading) ∧
  (loading w = false → authenticated w = false → App "/" w = Login w) ∧
  (loading w = false → authenticated w = true →
     App "/" w = VProtected (Navigation w) (Dashboard w)) ∧
  (Dashboard w = CandidateDashboard w ↔ role w = JStr "candidate") ∧
  (Dashboard w = EmployerDashboard w ↔ role w = JStr "employer") ∧
  (Dashboard w = AdminDashboard ↔
     role w ≠ JStr "candidate" ∧ role w ≠ JStr "employer") ∧
  (∀ storage, App "/" (initial storage) = VLoading) ∧
  (∀ storage t, storage !! "token" = Some t → t ≠ "" →
     App "/" (boot storage) = VLoading ∧
     ∀ o, loading (step "/" (Deliver 0 o) (boot storage)) = false) ∧
  (∀ storage, storage !! "token" = None → loading (boot storage) = false).
Proof.
  unfold App, ProtectedRoute, authenticated, Dashboard, role,
    CandidateDashboard, EmployerDashboard, AdminDashboard. cbn.
  rewrite <- !strict_eq_str_true, !not_true_iff_false.
  split_and!.
  - by intros ->.
  - by intros -> ->.
  - by intros -> ->.
  - destruct (strict_eq_str _ "candidate"); [done|].
    by destruct (strict_eq_str _ "employer").
  - destruct (strict_eq_str (prop (user w) "role") "candidate") eqn:Hc;
      destruct (strict_eq_str (prop (user w) "role") "employer") eqn:He;
      try done.
    apply strict_eq_str_true in Hc, He. congruence.
  - destruct (strict_eq_str _ "candidate"); [by split; [|intros []]|].
    destruct (strict_eq_str _ "employer"); [by split; [|intros []]|done].
  - done.
  - intros storage t Ht Hne. rewrite (boot_token _ _ Ht Hne).
    split; [done|]. by intros [].
  - intros storage Hn. by rewrite boot_no_token by auto.
Qed.

(** ** Mutations and their re-fetch *)

(** C7.  Sending a mutation puts exactly one request on the network, the
    POST, and touches no list.  When the POST resolves, the handler sends
    exactly one request, the GET of the affected collection, and closes the
    modal; when it is rejected it sends nothing, and the modal and the lists
    stay as they are.  The displayed collection changes only when that GET
    resolves, and then it becomes the response body as a whole. *)
Theorem mutation_then_refetch (m : Mutation) (w : World) :
  (∀ file,
     let w' := exec (handleUploadResume file) w in
     network (browser w') =
       (network (browser w) ++
        [mkRequest POST (API +:+ "/resumes/upload")
           ({[ "Content-Type" := "multipart/form-data" ]} ∪ axios_defaults (browser w))
           (FormDataBody [("file", file)])])%list ∧
     candidate w' = candidate w ∧ employer w' = employer w) ∧
  (∀ jobId resumeId coverLetter,
     let w' := exec (handleApplyToJob jobId resumeId coverLetter) w in
     network (browser w') =
       (network (browser w) ++
        [mkRequest POST (API +:+ "/applications") (axios_defaults (browser w))
           (JsonBody (JObj [("job_id", jobId); ("resume_id", resumeId);
                            ("cover_letter", coverLetter)]))])%list ∧
     candidate w' = candidate w ∧ employer w' = employer w) ∧
  (∀ jobData,
     let w' := exec (handleCreateJob jobData) w in
     network (browser w') =
       (network (browser w) ++
        [mkRequest POST (API +:+ "/jobs") (axios_defaults (browser w))
           (JsonBody jobData)])%list ∧
     candidate w' = candidate w ∧ employer w' = employer w) ∧
  (∀ id rest,
     take_pending id (pending (browser w)) = Some (mutation_cont m, rest) →
     (∀ data,
        let w' := exec (deliver id (Resolved data)) w in
        network (browser w') =
          (network (browser w) ++
           [mkRequest GET (refetch_url m) (axios_defaults (browser w)) NoBody])%list ∧
        pending (browser w') =
          (rest ++ [(length (network (browser w)), refetch_cont m)])%list ∧
        modal_open m w' = false ∧
        collection m w' = collection m w) ∧
     (∀ error,
        let w' := exec (deliver id (Rejected error)) w in
        network (browser w') = network (browser w) ∧
        pending (browser w') = rest ∧
        modal_open m w' = modal_open m w ∧
        collection m w' = collection m w)) ∧
  (∀ id rest,
     take_pending id (pending (browser w)) = Some (refetch_cont m, rest) →
     (∀ data,
        let w' := exec (deliver id (Resolved data)) w in
        collection m w' = data ∧
        network (browser w') = network (browser w)) ∧
     (∀ error,
        let w' := exec (deliver id (Rejected error)) w in
        collection m w' = collection m w ∧
        network (browser w') = network (browser w))).
Proof.
  split_and!.
  - intros file. hsimpl. done.
  - intros. hsimpl. by rewrite (left_id_L ∅ (∪)).
  - intros. hsimpl. by rewrite (left_id_L ∅ (∪)).
  - intros id rest Hk. split; intros; subst w'; unfold exec, deliver;
      rewrite Hk; destruct m; hsimpl; by rewrite ?(left_id_L ∅ (∪)).
  - intros id rest Hk. split; intros; subst w'; unfold exec, deliver;
      rewrite Hk; destruct m; hsimpl; done.
Qed.

(** ** The application modal *)

(** C9.  [handleSubmit] of the application modal, for a job on display:
    with a résumé selected it sends exactly one request, the POST to
    [/applications] with the job's id, the résumé id and the cover letter,
    whatever the cover letter is; with none selected it does nothing.  The
    same holds for the submit event as a whole. *)
Theorem application_submit (path : string) (w : World) (job : JsVal)
    (selectedResume coverLetter : string) :
  nullish job = false →
  CandidateState.selectedJob (candidate w) = job →
  let post :=
    mkRequest POST (API +:+ "/applications") (axios_defaults (browser w))
      (JsonBody (JObj [("job_id", prop job "id");
                       ("resume_id", JStr selectedResume);
                       ("cover_letter", JStr coverLetter)])) in
  (selectedResume ≠ "" →
     network (browser (exec (ApplicationModal_handleSubmit job selectedResume coverLetter) w))
       = (network (browser w) ++ [post])%list) ∧
  (selectedResume = "" →
     ApplicationModal_handleSubmit job selectedResume coverLetter w = (w, Normal tt)) ∧
  (selectedResume ≠ "" →
     enabled path (ApplicationModal_submit selectedResume coverLetter) w = true →
     network (browser (step path (ApplicationModal_submit selectedResume coverLetter) w))
       = (network (browser w) ++ [post])%list) ∧
  (selectedResume = "" →
     step path (ApplicationModal_submit selectedResume coverLetter) w = w) ∧
  (network (browser (step path (ApplicationModal_submit selectedResume coverLetter) w))
     ≠ network (browser w) → selectedResume ≠ "").
Proof.
  intros Hjob Hsel post.
  assert (Hsend : selectedResume ≠ "" →
    network (browser (exec (ApplicationModal_handleSubmit job selectedResume coverLetter) w))
      = (network (browser w) ++ [post])%list).
  { intros Hne. destruct selectedResume; [done|].
    unfold ApplicationModal_handleSubmit. cbn [truthy].
    hsimpl. rewrite (member_prop _ _ Hjob). hsimpl.
    by rewrite (left_id_L ∅ (∪)). }
  assert (Hnoop : selectedResume = "" →
    step path (ApplicationModal_submit selectedResume coverLetter) w = w).
  { intros ->. unfold step.
    destruct (enabled path _ w) eqn:He; [|done].
    unfold enabled in He.
    destruct (App path w) as [| | | |? []]; try done.
    destruct applicationModal; done. }
  split_and!; try done.
  - by intros ->.
  - intros Hne He. unfold step. rewrite He, browser_unmount.
    unfold exec in *. cbn [handler]. rewrite Hsel. by apply Hsend.
  - intros Hneq ->. by rewrite Hnoop in Hneq.
Qed.

(** ** The job form *)





(** * Further properties *)

(** ** The loading flag *)

Lemma loading_handler (ev : Event) (w : World) :
  loading w = false → loading (exec (handler ev) w) = false.
Proof.
  intros Hl. unfold loading in *.
  destruct ev as [id o| | | | | | | | |file|i| |r c| | | |jobData]; hsimpl;
    try exact Hl.
  - destruct (take_pending id (pending (browser w))) as [[k rest]|]; [|exact Hl].
    destruct k, o as [data|error]; hsimpl; rewrite ?opt_member_prop; hsimpl;
      try exact Hl; try reflexivity.
    all: destruct data; hsimpl; rewrite ?opt_member_prop; hsimpl; exact Hl.
  - destruct (truthy file); hsimpl; exact Hl.
  - destruct (nth_item _ i); hsimpl; exact Hl.
  - destruct r; hsimpl; [exact Hl|].
    destruct (member _ "id"); hsimpl; exact Hl.
Qed.

(** X1.  [setLoading] is only ever called with [false]: once the loading
    screen has gone it stays away, whatever happens next on whatever
    route. *)
Theorem loading_never_resumes (path : string) (evs : list Event) (w : World) :
  loading w = false → loading (run path evs w) = false.
Proof.
  revert w. induction evs as [|ev evs IH]; intros w Hl; [exact Hl|].
  cbn. apply IH. unfold step. destruct (enabled path ev w); [|exact Hl].
  change (loading (unmount path ?x)) with (loading x).
  by apply loading_handler.
Qed.

(** ** Who can change the session *)

(** X2.  The only thing that turns an unauthenticated session into an
    authenticated one is the arrival of a resolved response awaited by
    [fetchUser], [login] or [register]; the user then is the one in that
    response. *)
Theorem authenticated_only_by_session_response (path : string) (ev : Event)
    (w : World) :
  authenticated w = false →
  authenticated (step path ev w) = true →
  ∃ id data k rest,
    ev = Deliver id (Resolved data) ∧
    take_pending id (pending (browser w)) = Some (k, rest) ∧
    session_cont k = true ∧
    user (step path ev w) = (if k is KfetchUser then data else prop data "user").
Proof.
  intros Hu. unfold step. destruct (enabled path ev w); [|congruence].
  change (authenticated (unmount path ?x)) with (authenticated x).
  change (user (unmount path ?x)) with (user x).
  unfold authenticated, user in *.
  destruct ev as [id o| | | | | | | | |file|i| |r c| | | |jobData]; hsimpl;
    try congruence.
  - destruct (take_pending id (pending (browser w))) as [[k rest]|] eqn:Hk;
      [|hsimpl; congruence].
    destruct k, o as [data|error]; hsimpl; rewrite ?opt_member_prop; hsimpl;
      try congruence.
    + intros _. by exists id, data, KfetchUser, rest.
    + intros H. exists id, data, Klogin, rest. repeat split; try done.
      revert H. unfold prop.
      destruct data; hsimpl; rewrite ?opt_member_prop; hsimpl; congruence.
    + intros H. exists id, data, Kregister, rest. repeat split; try done.
      revert H. unfold prop.
      destruct data; hsimpl; rewrite ?opt_member_prop; hsimpl; congruence.
  - destruct (truthy file); hsimpl; congruence.
  - destruct (nth_item _ i); hsimpl; congruence.
  - destruct r; hsimpl; [congruence|].
    destruct (member _ "id"); hsimpl; congruence.
Qed.

(** X3.  Nothing outside the session store touches the session: an event
    other than the logout button and the arrival of a response awaited by
    [fetchUser], [login] or [register] leaves the stored token, the default
    headers, the user and the loading flag as they are. *)
Theorem session_untouched_by_dashboards (path : string) (ev : Event) (w : World) :
  session_event ev w = false →
  localStorage (browser (step path ev w)) = localStorage (browser w) ∧
  axios_defaults (browser (step path ev w)) = axios_defaults (browser w) ∧
  auth (step path ev w) = auth w.
Proof.
  intros Hs. unfold step. destruct (enabled path ev w); [|done].
  change (browser (unmount path ?x)) with (browser x).
  change (auth (unmount path ?x)) with (auth x).
  destruct ev as [id o| | | | | | | | |file|i| |r c| | | |jobData];
    try discriminate Hs; hsimpl; try done.
  - cbn in Hs.
    destruct (take_pending id (pending (browser w))) as [[k rest]|]; [|done].
    destruct k; try discriminate Hs; destruct o; hsimpl; done.
  - destruct (truthy file); hsimpl; done.
  - destruct (nth_item _ i); hsimpl; done.
  - destruct r; hsimpl; [done|].
    destruct (member _ "id"); hsimpl; done.
Qed.

(** ** The calls that are made *)

Lemma known_GET url :
  (GET, url) ∈ endpoints → known_endpoint (mkRequest GET url ∅ NoBody) .
Proof. by split. Qed.

Ltac in_endpoints := unfold endpoints; rewrite !elem_of_cons; auto 12.

Ltac known :=
  repeat first
    [ apply Forall_nil_2
    | apply Forall_cons_2
    | (split; cbn; [in_endpoints | done]) ].

Lemma handler_endpoints (ev : Event) (w : World) :
  ∃ new,
    network (browser (exec (handler ev) w)) = (network (browser w) ++ new)%list ∧
    Forall known_endpoint new.
Proof.
  pose (no_new := λ l : list Request, eq_sym (app_nil_r l)).
  destruct ev as [id o| | | | | | | | |file|i| |r c| | | |jobData]; hsimpl;
    try (exists []; split; [apply no_new | apply Forall_nil_2]).
  - destruct (take_pending id (pending (browser w))) as [[k rest]|].
    2:{ exists []. split; [apply no_new | apply Forall_nil_2]. }
    destruct k, o as [data|error]; hsimpl; rewrite ?opt_member_prop; hsimpl.
    all: try (exists []; split; [apply no_new | apply Forall_nil_2]).
    all: try (eexists [_]; split; [reflexivity|]; known).
    all: destruct data; hsimpl; rewrite ?opt_member_prop; hsimpl.
    all: exists []; split; [apply no_new | apply Forall_nil_2].
  - eexists [_]; split; [reflexivity|]. known.
  - eexists [_]; split; [reflexivity|]. known.
  - rewrite <- !app_assoc. eexists [_; _; _]; split; [reflexivity|]. known.
  - destruct (truthy file); hsimpl.
    + eexists [_]; split; [reflexivity|]. known.
    + exists []; split; [apply no_new | apply Forall_nil_2].
  - destruct (nth_item _ i); hsimpl.
    all: exists []; split; [apply no_new | apply Forall_nil_2].
  - destruct r; hsimpl; [exists []; split; [apply no_new | apply Forall_nil_2]|].
    destruct (member _ "id"); hsimpl.
    + eexists [_]; split; [reflexivity|]. known.
    + exists []; split; [apply no_new | apply Forall_nil_2].
  - rewrite <- !app_assoc. eexists [_; _]; split; [reflexivity|]. known.
  - eexists [_]; split; [reflexivity|]. known.
Qed.

Lemma step_endpoints path ev w :
  Forall known_endpoint (network (browser w)) →
  Forall known_endpoint (network (browser (step path ev w))).
Proof.
  intros H. unfold step. destruct (enabled path ev w); [|done].
  rewrite browser_unmount.
  destruct (handler_endpoints ev w) as (new & -> & Hnew).
  by apply Forall_app_2.
Qed.

(** X4.  From the moment the page is loaded, on any route and whatever
    happens, the only calls made are the nine of the file: [GET /me],
    [POST /login], [POST /register], [GET] and [POST /jobs], [GET /resumes],
    [POST /resumes/upload], [GET] and [POST /applications], all below
    [BACKEND_URL/api]; and no [GET] carries a body. *)
Theorem only_known_endpoints (path : string) (storage : gmap string string)
    (evs : list Event) :
  Forall known_endpoint (network (browser (run path evs (boot storage)))).
Proof.
  assert (Hboot : Forall known_endpoint (network (browser (boot storage)))).
  { destruct (storage !! "token") as [t|] eqn:Ht.
    - destruct (decide (t = "")) as [->|Hne].
      + rewrite boot_no_token by auto. apply Forall_nil_2.
      + rewrite (boot_token _ _ Ht Hne). cbn. known.
    - rewrite boot_no_token by auto. apply Forall_nil_2. }
  revert Hboot. generalize (boot storage).
  induction evs as [|ev evs IH]; intros w Hw; [exact Hw|].
  cbn. apply IH. by apply step_endpoints.
Qed.

(** X5.  After the logout button has been pressed no request carries an
    [Authorization] header, whatever the next event is; this includes the
    re-fetch sent when a mutation started before the logout resolves after
    it, which goes out without credentials. *)
Theorem no_bearer_after_logout (storage : gmap string string)
    (evs : list Event) (name : JsVal) (d : DashboardView) (ev : Event) :
  let w := run "/" evs (boot storage) in
  App "/" w = VProtected (VWelcome name) d →
  let w' := step "/" Navigation_clickLogout w in
  ∃ new,
    network (browser (step "/" ev w')) = (network (browser w') ++ new)%list ∧
    Forall (carries None) new.
Proof.
  intros w Hv w'.
  assert (Ha : authorization w' = None).
  { subst w'. unfold step, enabled. rewrite Hv.
    unfold authorization. hsimpl. by rewrite lookup_delete_eq. }
  rewrite <- Ha. apply step_requests.
Qed.

(** ** The message on the sign-in form *)

Lemma login_error_handler (ev : Event) (w : World) :
  truthy (LoginState.error (login_st w)) = true →
  truthy (LoginState.error (login_st (exec (handler ev) w))) = true.
Proof.
  intros He.
  destruct ev as [id o| | | | | | | | |file|i| |r c| | | |jobData]; hsimpl;
    try exact He.
  - destruct (take_pending id (pending (browser w))) as [[k rest]|]; [|exact He].
    destruct k, o as [data|error]; hsimpl; rewrite ?opt_member_prop; hsimpl;
      try exact He; try apply truthy_js_or_generic.
    all: destruct data; hsimpl; rewrite ?opt_member_prop; hsimpl;
      try exact He; try apply truthy_js_or_generic; reflexivity.
  - destruct (truthy file); hsimpl; exact He.
  - destruct (nth_item _ i); hsimpl; exact He.
  - destruct r; hsimpl; [exact He|].
    destruct (member _ "id"); hsimpl; exact He.
Qed.

(** X6.  Nothing ever clears the message of the sign-in form: on the
    [/login] route, where the form stays mounted, a message once set is
    still set after any sequence of events, a successful sign-in
    included. *)
Theorem login_error_never_cleared (evs : list Event) (w : World) :
  truthy (LoginState.error (login_st w)) = true →
  truthy (LoginState.error (login_st (run "/login" evs w))) = true.
Proof.
  revert w. induction evs as [|ev evs IH]; intros w He; [exact He|].
  cbn. apply IH. unfold step. destruct (enabled "/login" ev w); [|exact He].
  assert (H : login_st (unmount "/login" (exec (handler ev) w))
              = login_st (exec (handler ev) w)).
  { unfold unmount, App, Login, Register. cbn.
    by destruct (LoginState.showRegister _). }
  rewrite H. by apply login_error_handler.
Qed.

(** ** Responses in flight *)

(** Case analysis on the conditions of the conditionals in the goal, from
    the outside in. *)
Ltac case_ifs :=
  repeat (match goal with
          | |- context [if ?b then _ else _] => destruct b eqn:?
          end; cbn).

Lemma take_pending_swap i j l k1 r1 k2 r2 :
  i ≠ j →
  take_pending i l = Some (k1, r1) →
  take_pending j l = Some (k2, r2) →
  ∃ r, take_pending j r1 = Some (k2, r) ∧ take_pending i r2 = Some (k1, r).
Proof.
  intros Hij. revert r1 r2.
  induction l as [|[a k] l IH]; intros r1 r2; cbn; [done|].
  destruct (Nat.eqb_spec a i) as [Hai|Hai].
  - subst a. destruct (Nat.eqb_spec i j) as [|_]; [done|].
    intros [= <- <-].
    destruct (take_pending j l) as [[k' r]|] eqn:Hj; [|done].
    intros [= <- <-]. exists r. split; [done|]. cbn. by rewrite Nat.eqb_refl.
  - destruct (Nat.eqb_spec a j) as [Haj|Haj].
    + subst a. destruct (take_pending i l) as [[k' r]|] eqn:Hi; [|done].
      intros [= <- <-] [= <- <-]. exists r. split; [|done].
      cbn. by rewrite Nat.eqb_refl.
    + destruct (take_pending i l) as [[k' r]|] eqn:Hi; [|done].
      destruct (take_pending j l) as [[k'' r']|] eqn:Hj; [|done].
      intros [= <- <-] [= <- <-].
      destruct (IH r r' eq_refl eq_refl) as (r0 & H1 & H2).
      exists ((a, k) :: r0). cbn.
      destruct (Nat.eqb_spec a i), (Nat.eqb_spec a j); try done.
      by rewrite H1, H2.
Qed.

Ltac unfold_views :=
  unfold unmount, App, ProtectedRoute, Login, Register, Dashboard,
    CandidateDashboard, EmployerDashboard, AdminDashboard, Navigation,
    Candidate_mounted, Employer_mounted, loading, user.

(** The state after unmounting, when the handler has left the session
    and the two forms alone. *)
Lemma unmount_after path w x :
  auth x = auth w → login_st x = login_st w → register_st x = register_st w →
  unmount path x =
    mkWorld (browser x) (auth w)
      (login_st (unmount path w)) (register_st (unmount path w))
      (if Candidate_mounted (App path w) then candidate x else CandidateState.init)
      (if Employer_mounted (App path w) then employer x else EmployerState.init).
Proof.
  destruct x as [bx ax lx rx cx ex], w as [bw aw lw rw cw ew]. cbn.
  intros -> -> ->. unfold_views. cbn. case_ifs; reflexivity.
Qed.

Lemma mounted_unmount path w :
  Candidate_mounted (App path (unmount path w)) = Candidate_mounted (App path w) ∧
  Employer_mounted (App path (unmount path w)) = Employer_mounted (App path w).
Proof. unfold_views. cbn. case_ifs; by split. Qed.

(** A resolved collection fetch, as a step of the page. *)
Lemma step_fetch path w id k rest d :
  take_pending id (pending (browser w)) = Some (k, rest) →
  fetch_cont k = true →
  step path (Deliver id (Resolved d)) w =
    mkWorld (browser (set_pending rest w)) (auth w)
      (login_st (unmount path w)) (register_st (unmount path w))
      (if Candidate_mounted (App path w)
       then candidate (exec (resume k (Resolved d)) w) else CandidateState.init)
      (if Employer_mounted (App path w)
       then employer (exec (resume k (Resolved d)) w) else EmployerState.init).
Proof.
  intros Hk Hf.
  change (step path (Deliver id (Resolved d)) w)
    with (unmount path (exec (deliver id (Resolved d)) w)).
  rewrite (unmount_after path w);
    unfold exec, deliver; rewrite Hk;
    destruct k; try discriminate Hf; reflexivity.
Qed.

(** X7.  The collection fetches are independent of each other: when the
    responses to two different fetches are both in flight and both resolve,
    the state of the page is the same whichever arrives first. *)
Theorem fetch_responses_commute (path : string) (w : World) (i j : nat)
    (k1 k2 : Cont) (r1 r2 : list (nat * Cont)) (d1 d2 : JsVal) :
  take_pending i (pending (browser w)) = Some (k1, r1) →
  take_pending j (pending (browser w)) = Some (k2, r2) →
  fetch_cont k1 = true → fetch_cont k2 = true → k1 ≠ k2 →
  run path [Deliver i (Resolved d1); Deliver j (Resolved d2)] w =
  run path [Deliver j (Resolved d2); Deliver i (Resolved d1)] w.
Proof.
  intros H1 H2 Hf1 Hf2 Hne.
  assert (Hij : i ≠ j) by (intros ->; congruence).
  destruct (take_pending_swap _ _ _ _ _ _ _ Hij H1 H2) as (r & Hj & Hi).
  cbn [run].
  rewrite (step_fetch path w i k1 r1 d1 H1 Hf1).
  rewrite (step_fetch path w j k2 r2 d2 H2 Hf2).
  pose proof (unmount_idem path w) as Hidem.
  destruct (mounted_unmount path w) as [Hc He].
  set (u := unmount path w) in *.
  match goal with
  | |- step _ _ ?a = step _ _ ?b => set (w1 := a); set (w2 := b)
  end.
  assert (E1 : ∀ x, auth x = auth w → login_st x = login_st u →
               register_st x = register_st u →
               unmount path x =
                 mkWorld (browser x) (auth w) (login_st u) (register_st u)
                   (if Candidate_mounted (App path w) then candidate x
                    else CandidateState.init)
                   (if Employer_mounted (App path w) then employer x
                    else EmployerState.init)).
  { intros x Ha Hl Hr. rewrite (unmount_after path u x) by done.
    fold u in Hidem. by rewrite Hidem, Hc, He. }
  change (step path (Deliver j (Resolved d2)) w1)
    with (unmount path (exec (deliver j (Resolved d2)) w1)).
  change (step path (Deliver i (Resolved d1)) w2)
    with (unmount path (exec (deliver i (Resolved d1)) w2)).
  rewrite (E1 (exec (deliver j (Resolved d2)) w1)), (E1 (exec (deliver i (Resolved d1)) w2)).
  - unfold exec, deliver. subst w1 w2. cbn [browser pending set_pending upd_browser].
    rewrite Hi, Hj.
    destruct (Candidate_mounted (App path w)), (Employer_mounted (App path w));
      destruct k1; try discriminate Hf1; destruct k2; try discriminate Hf2;
      try done; reflexivity.
  - unfold exec, deliver. subst w2. cbn [browser pending set_pending upd_browser].
    rewrite Hi. destruct k1; try discriminate Hf1; reflexivity.
  - unfold exec, deliver. subst w2. cbn [browser pending set_pending upd_browser].
    rewrite Hi. destruct k1; try discriminate Hf1; reflexivity.
  - unfold exec, deliver. subst w2. cbn [browser pending set_pending upd_browser].
    rewrite Hi. destruct k1; try discriminate Hf1; reflexivity.
  - unfold exec, deliver. subst w1. cbn [browser pending set_pending upd_browser].
    rewrite Hj. destruct k2; try discriminate Hf2; reflexivity.
  - unfold exec, deliver. subst w1. cbn [browser pending set_pending upd_browser].
    rewrite Hj. destruct k2; try discriminate Hf2; reflexivity.
  - unfold exec, deliver. subst w1. cbn [browser pending set_pending upd_browser].
    rewrite Hj. destruct k2; try discriminate Hf2; reflexivity.
Qed.


Lemma App_unmount path w : App path (unmount path w) = App path w.
Proof. unfold_views. cbn. case_ifs; try reflexivity; congruence. Qed.





(** ** A mutation, start to finish *)


(** ** Applying to a job *)

Lemma App_candidate w x :
  Candidate_mounted (App "/" w) = true → auth x = auth w →
  App "/" x = VProtected (Navigation w) (CandidateDashboard x).
Proof.
  destruct x as [bx ax lx rx cx ex], w as [bw aw lw rw cw ew]. cbn.
  intros H ->. revert H. unfold_views. cbn. case_ifs; done.
Qed.

(** X9.  With the candidate dashboard on screen, pressing "Apply Now" on
    the i-th job card and submitting the modal with a résumé chosen sends
    one request: the POST to [/applications] with the [id] of that very job,
    the chosen résumé and the cover letter.  If the i-th entry of the job
    list is falsy (a [null] in the collection), the modal does not open and
    nothing is sent. *)
Theorem apply_posts_clicked_job (w : World) (items : list JsVal) (i : nat)
    (job : JsVal) (selectedResume coverLetter : string) :
  Candidate_mounted (App "/" w) = true →
  CandidateState.jobs (candidate w) = JArr items →
  items !! i = Some job →
  selectedResume ≠ "" →
  let w' := run "/" [ Candidate_clickApplyNow i;
                      ApplicationModal_submit selectedResume coverLetter ] w in
  network (browser w') =
    if truthy job then
      (network (browser w) ++
       [mkRequest POST (API +:+ "/applications") (axios_defaults (browser w))
          (JsonBody (JObj [("job_id", prop job "id");
                           ("resume_id", JStr selectedResume);
                           ("cover_letter", JStr coverLetter)]))])%list
    else network (browser w).
Proof.
  intros Hm Hjobs Hi Hr. cbn [run].
  assert (He1 : enabled "/" (Candidate_clickApplyNow i) w = true).
  { unfold enabled. rewrite (App_candidate w w Hm eq_refl). done. }
  unfold step at 2. rewrite He1.
  set (x := exec (handler (Candidate_clickApplyNow i)) w).
  assert (Hx : x = mkWorld (browser w) (auth w) (login_st w) (register_st w)
                 (CandidateState.mk (CandidateState.jobs (candidate w))
                    (CandidateState.resumes (candidate w))
                    (CandidateState.applications (candidate w))
                    job (CandidateState.showUploadModal (candidate w)) true)
                 (employer w)).
  { subst x. unfold exec. cbn [handler]. unfold nth_item.
    rewrite Hjobs, Hi. hsimpl. by rewrite Hjobs. }
  rewrite (unmount_after "/" w x) by by rewrite Hx.
  rewrite Hm. rewrite Hx. cbn [browser candidate employer].
  set (w1 := mkWorld _ _ _ _ _ _).
  assert (Hv1 : App "/" w1 = VProtected (Navigation w) (CandidateDashboard w1))
    by by apply App_candidate.
  unfold step, enabled. rewrite Hv1.
  unfold CandidateDashboard at 1. cbn -[checkValidity].
  destruct (truthy job) eqn:Hj; cbn -[checkValidity]; [|done].
  destruct selectedResume as [|c0 s0]; [done|].
  unfold checkValidity, input_valid, valueMissing, typeMismatch. cbn.
  unfold exec. hsimpl.
  rewrite member_prop by (by destruct job).
  hsimpl. by rewrite (left_id_L ∅ (∪)).
Qed.

(** ** From the sign-in form to the dashboard *)

(** X10.  In any state reached on the root route that shows the sign-in or
    the registration form, a resolved [login] or [register] response with a
    user replaces the form by the navigation bar greeting that user and the
    dashboard of the user's role, freshly mounted: its lists are empty and
    its modals closed until its own fetches resolve. *)
Theorem sign_in_shows_dashboard (storage : gmap string string)
    (evs : list Event) (id : nat) (k : Cont) (rest : list (nat * Cont))
    (data : JsVal) :
  let w := run "/" evs (boot storage) in
  (∃ e, App "/" w = VLogin e ∨ App "/" w = VRegister e) →
  take_pending id (pending (browser w)) = Some (k, rest) →
  k = Klogin ∨ k = Kregister →
  nullish data = false →
  truthy (prop data "user") = true →
  App "/" (step "/" (Deliver id (Resolved data)) w) =
    VProtected (VWelcome (prop (prop data "user") "full_name"))
      (fresh_dashboard (prop data "user")).
Proof.
  intros w [e Hv] Hk Hkind Hdata Huser.
  assert (Hclean : unmount "/" w = w) by apply run_clean, boot_clean.
  clearbody w.
  assert (Hc : Candidate_mounted (App "/" w) = false)
    by (by destruct Hv as [-> | ->]).
  assert (He : Employer_mounted (App "/" w) = false)
    by (by destruct Hv as [-> | ->]).
  assert (Hl : loading w = false).
  { revert Hv. unfold App, ProtectedRoute. cbn.
    destruct (loading w); [|done]. by intros [|]. }
  clear e Hv.
  assert (Hcand : candidate (unmount "/" w) = CandidateState.init).
  { rewrite (unmount_after "/" w w) by done. cbn [candidate]. by rewrite Hc. }
  assert (Hemp : employer (unmount "/" w) = EmployerState.init).
  { rewrite (unmount_after "/" w w) by done. cbn [employer]. by rewrite He. }
  rewrite Hclean in Hcand, Hemp.
  change (step "/" (Deliver id (Resolved data)) w)
    with (unmount "/" (exec (deliver id (Resolved data)) w)).
  rewrite App_unmount. unfold exec, deliver. rewrite Hk.
  unfold prop in *. unfold loading in Hl.
  destruct Hkind as [-> | ->]; destruct data; try discriminate Hdata;
    hsimpl; unfold App, ProtectedRoute, Navigation, Dashboard, fresh_dashboard,
      CandidateDashboard, EmployerDashboard, AdminDashboard, loading, user, prop;
    cbn in *; rewrite ?Hl, ?Huser, ?Hcand, ?Hemp; cbn; case_ifs; done.
Qed.

(** ** The other forms *)

(** X11.  With the sign-in form on screen it can be submitted exactly when
    the e-mail is filled in and well-formed and the password is not
    empty. *)
Theorem login_submit_allowed (path : string) (w : World) (e : option JsVal)
    (f : LoginForm.t) :
  App path w = VLogin e →
  (enabled path (Login_submit f) w = true ↔
   LoginForm.email f ≠ "" ∧ valid_email (LoginForm.email f) = true ∧
   LoginForm.password f ≠ "").
Proof using valid_email.
  clear BACKEND_URL. intros Hv. unfold enabled. rewrite Hv.
  unfold checkValidity, Login_inputs, input_valid, valueMissing, typeMismatch.
  cbn. rewrite <- !is_empty_false.
  destruct (is_empty (LoginForm.email f)),
           (valid_email (LoginForm.email f)),
           (is_empty (LoginForm.password f)); cbn; intuition congruence.
Qed.


(** X13.  With the upload modal open, submitting it sends a request exactly
    when a file has been chosen: one POST to [/resumes/upload] whose form
    data holds the file under ["file"], with the content type set to
    multipart for this call and every other default header, the bearer
    token in particular, as for any other call. *)
Theorem upload_submit (path : string) (w : World) (nav : NavigationView)
    (jobs resumes applications : JsVal) (am : option JsVal) (file : JsVal) :
  App path w = VProtected nav (VCandidateDashboard jobs resumes applications true am) →
  let w' := step path (UploadModal_submit file) w in
  (truthy file = false → w' = w) ∧
  (truthy file = true →
   ∃ r, network (browser w') = (network (browser w) ++ [r])%list ∧
        req_method r = POST ∧ req_url r = API +:+ "/resumes/upload" ∧
        req_body r = FormDataBody [("file", file)] ∧
        req_headers r !! "Content-Type" = Some "multipart/form-data" ∧
        (∀ h, h ≠ "Content-Type" →
              req_headers r !! h = axios_defaults (browser w) !! h)).
Proof.
  intros Hv w'. subst w'. unfold step, enabled. rewrite Hv.
  unfold checkValidity, UploadModal_inputs, input_valid, valueMissing, typeMismatch.
  destruct (truthy file) eqn:Hf; cbn -[handler exec unmount].
  - split; [done|]. intros _.
    change (is_empty (_ +:+ _)) with false. cbn [negb andb].
    rewrite browser_unmount.
    unfold exec. cbn [handler]. unfold UploadModal_handleSubmit. rewrite Hf.
    hsimpl. eexists. split; [reflexivity|]. cbn.
    split_and!; try done.
    + by rewrite lookup_union_l', lookup_singleton_eq.
    + intros h Hh. by rewrite lookup_union_r by by rewrite lookup_singleton_ne.
  - done.
Qed.

(** ** Editing the registration form *)

(** X14.  Editing the registration form never loses what was typed: after
    any sequence of edits a control shows what it showed before, unless
    one of the edits was to that control.  In particular a company name
    typed as employer stays in the form state when the role is switched,
    and is sent with the registration although its control is gone. *)
Theorem register_edits_keep_other_fields (field : RegisterField)
    (edits : list (RegisterField * string)) (f : RegisterForm.t) (w : World) :
  Forall (fun e => e.1 ≠ field) edits →
  let f' := Register_edits edits f in
  Register_value field f' = Register_value field f ∧
  (field = Field_company_name →
   ∃ r, network (browser (exec (Register_handleSubmit f') w))
          = (network (browser w) ++ [r])%list ∧
        req_url r = API +:+ "/register" ∧
        ∃ body, req_body r = JsonBody body ∧
                prop body "company_name" = JStr (RegisterForm.company_name f)).
Proof.
  intros Hedits f'.
  assert (Hval : Register_value field f' = Register_value field f).
  { subst f'. revert f. induction Hedits as [|[fld v] edits Hne _ IH]; intros f;
      [done|].
    cbn [Register_edits]. rewrite IH.
    destruct (Register_rendered fld f); [|done].
    cbn in Hne. by destruct fld, field. }
  split; [exact Hval|].
  intros ->. cbn in Hval. hsimpl.
  eexists. split; [reflexivity|]. split; [done|].
  eexists. split; [reflexivity|]. cbn. by rewrite Hval.
Qed.

(** ** The salary line of a job card *)

(** X15.  The salary line of a job card: the range is shown exactly when
    both bounds are truthy.  A bound that is [null] or [undefined] shows
    nothing, but a bound that is the number 0 is itself put on screen: a job
    with minimum salary 0 shows a bare "0", and so does one with a truthy
    minimum and maximum 0.  Jobs as the job form sends them have [null] for
    an empty field: they show nothing when the minimum was left empty, and
    nothing when the maximum was left empty and the minimum is a number
    other than 0. *)
Theorem salary_line_cases (job : JsVal) :
  let lo := prop job "salary_min" in
  let hi := prop job "salary_max" in
  (salary_line job = ChildSalaryRange lo hi ↔ truthy lo = true ∧ truthy hi = true) ∧
  (nullish lo = true → salary_line job = ChildNothing) ∧
  (truthy lo = true → nullish hi = true → salary_line job = ChildNothing) ∧
  (lo = JNum 0 → salary_line job = ChildText "0") ∧
  (truthy lo = true → hi = JNum 0 → salary_line job = ChildText "0") ∧
  (∀ jobData,
     job = formattedData jobData →
     JobForm.salary_min jobData = "" ∨
     (JobForm.salary_max jobData = "" ∧
      truthy (parseInt (JobForm.salary_min jobData)) = true) →
     salary_line job = ChildNothing).
Proof.
  intros lo hi. unfold salary_line. fold lo hi. split_and!.
  - destruct (truthy lo) eqn:Hl; [destruct (truthy hi) eqn:Hh|].
    + done.
    + split; [|by intros [_ ?]]. by destruct hi.
    + split; [|by intros [? _]]. by destruct lo.
  - intros H. by destruct lo.
  - intros -> H. by destruct hi.
  - by intros ->.
  - by intros -> ->.
  - intros jobData -> [H|[H Ht]]; subst lo hi; cbn -[parseInt]; rewrite H;
      cbn -[parseInt]; [done|].
    destruct (JobForm.salary_min jobData) as [|c s0]; [done|].
    cbn -[parseInt]. by rewrite Ht.
Qed.

End Program.

(** * Worked examples

    The theorems above, applied to the sample runs at a concrete back end. *)

(** A sign-in that returns token ["t1"] stores it and sets the header; a
    rejected sign-in answers with the response's detail, a rejected
    registration without response with the generic message. *)
Lemma login_register_result_example :
  (∃ w',
     login_resume (Resolved (sample_login_response "t1" sample_candidate)) (initial ∅)
       = (w', Normal (JObj [("success", JBool true)])) ∧
     token w' = Some "t1" ∧ authorization w' = Some "Bearer t1" ∧
     user w' = sample_candidate) ∧
  login_resume (Rejected (sample_error 401 (JStr "Incorrect email or password")))
      (initial ∅)
    = (initial ∅,
       Normal (JObj [("success", JBool false);
                     ("error", JStr "Incorrect email or password")])) ∧
  register_resume (Rejected network_error) (initial ∅)
    = (initial ∅,
       Normal (JObj [("success", JBool false);
                     ("error", JStr "Registration failed")])).
Proof.
  destruct (login_register_result (initial ∅)) as (Hok & Hfail & _).
  split; [|split].
  - destruct (Hok (sample_login_response "t1" sample_candidate) eq_refl)
      as (w' & H1 & _ & H3 & H4 & H5 & _).
    exists w'. auto.
  - exact (proj1 (Hfail (sample_error 401 (JStr "Incorrect email or password")))).
  - exact (proj1 (proj2 (Hfail network_error))).
Defined.

(** A page load with token ["t1"] in storage. *)
Lemma session_restore_example :
  let w := boot sample_backend {[ "token" := "t1" ]} in
  authorization w = Some "Bearer t1" ∧
  loading w = true ∧
  user (step sample_backend sample_valid_email "/"
          (Deliver 0 (Resolved sample_candidate)) w) = sample_candidate ∧
  token (step sample_backend sample_valid_email "/"
           (Deliver 0 (Rejected (sample_error 401 (JStr "Could not validate credentials")))) w)
    = None.
Proof.
  destruct (session_restore sample_backend sample_valid_email
              {[ "token" := "t1" ]} "/") as [H _].
  assert (Hne : "t1" ≠ "") by discriminate.
  destruct (H "t1" eq_refl Hne) as (Ha & _ & _ & Hl & _ & Hok & Hfail).
  split; [exact Ha|]. split; [exact Hl|]. split.
  - exact (proj1 (Hok sample_candidate)).
  - exact (proj1 (Hfail _)).
Defined.




(** The scenario of the specification: the requests that follow a sign-in
    returning ["t1"] carry ["Bearer t1"]. *)
Example requests_after_login :
  map (fun r => (req_method r, req_url r, req_headers r !! "Authorization"))
      (network (browser (candidate_session sample_backend sample_valid_email)))
  = [ (POST, "http://localhost:8001/api/login", None);
      (GET, "http://localhost:8001/api/jobs", Some "Bearer t1");
      (GET, "http://localhost:8001/api/resumes", Some "Bearer t1");
      (GET, "http://localhost:8001/api/applications", Some "Bearer t1") ].
Proof. vm_compute. reflexivity. Qed.


(** The candidate logs out. *)
Lemma logout_clears_session_example :
  let w := candidate_session sample_backend sample_valid_email in
  let w' := step sample_backend sample_valid_email "/" Navigation_clickLogout w in
  token w' = None ∧ authorization w' = None ∧ user w' = JNull ∧
  authenticated w' = false ∧
  App "/" w' = VLogin None ∧
  App "/" (reload sample_backend w') = VLogin None ∧
  authenticated (reload sample_backend w') = false ∧
  network (browser (reload sample_backend w')) = [].
Proof.
  eapply (logout_clears_session sample_backend sample_valid_email ∅
            candidate_signs_in).
  vm_compute. reflexivity.
Defined.

(** An employer without company name cannot submit; with one, or as a
    candidate without one, the form goes through. *)
Lemma register_submit_allowed_example :
  let w := step sample_backend sample_valid_email "/" Login_clickSignUp
             (boot sample_backend ∅) in
  enabled sample_valid_email "/"
    (Register_submit (RegisterForm.mk "bob@acme.com" "pw" "Bob" "employer" "" "")) w
    = false ∧
  enabled sample_valid_email "/"
    (Register_submit (RegisterForm.mk "bob@acme.com" "pw" "Bob" "employer" "Acme" "")) w
    = true ∧
  enabled sample_valid_email "/"
    (Register_submit (RegisterForm.mk "alice@x.com" "pw" "Alice" "candidate" "" "")) w
    = true.
Proof.
  intros w.
  assert (Hv : App "/" w = VRegister None) by reflexivity.
  split; [|split].
  - destruct (enabled sample_valid_email "/" _ w) eqn:He; [|reflexivity].
    apply (register_submit_allowed sample_valid_email "/" w None _ Hv) in He.
    destruct He as (_ & _ & _ & _ & Hc). by destruct (Hc eq_refl).
  - apply (register_submit_allowed sample_valid_email "/" w None _ Hv).
    repeat split; discriminate.
  - apply (register_submit_allowed sample_valid_email "/" w None _ Hv).
    repeat split; discriminate.
Defined.

(** The upload in flight: when it resolves the résumés are fetched again,
    when it is rejected nothing is sent and the modal stays open. *)
Lemma mutation_then_refetch_example :
  let w := upload_in_flight sample_backend sample_valid_email in
  let ok := exec (deliver sample_backend 4 (Resolved JNull)) w in
  let ko := exec (deliver sample_backend 4 (Rejected network_error)) w in
  map req_url (network (browser ok)) =
    (map req_url (network (browser w)) ++ ["http://localhost:8001/api/resumes"])%list ∧
  modal_open UploadResume ok = false ∧
  network (browser ko) = network (browser w) ∧
  modal_open UploadResume ko = true.
Proof.
  intros w ok ko.
  destruct (mutation_then_refetch sample_backend UploadResume w)
    as (_ & _ & _ & H & _).
  destruct (H 4 [] eq_refl) as [Hok Hko].
  destruct (Hok JNull) as (Hn & _ & Hm & _).
  destruct (Hko network_error) as (Hn' & _ & Hm' & _).
  split; [|split; [exact Hm | split; [exact Hn' | exact Hm']]].
  subst ok. rewrite Hn, map_app. reflexivity.
Defined.

(** The three screens of the root route. *)
Lemma route_guard_example :
  let w := candidate_session sample_backend sample_valid_email in
  App "/" (boot sample_backend {[ "token" := "t1" ]}) = VLoading ∧
  App "/" (boot sample_backend ∅) = VLogin None ∧
  App "/" w = VProtected (VWelcome (JStr "Alice")) (CandidateDashboard w).
Proof.
  intros w.
  assert (H1 : loading (boot sample_backend {[ "token" := "t1" ]}) = true)
    by (vm_compute; reflexivity).
  assert (H2 : loading (boot sample_backend ∅) = false)
    by (vm_compute; reflexivity).
  assert (H3 : authenticated (boot sample_backend ∅) = false)
    by (vm_compute; reflexivity).
  assert (H4 : loading w = false) by (vm_compute; reflexivity).
  assert (H5 : authenticated w = true) by (vm_compute; reflexivity).
  assert (H6 : role w = JStr "candidate") by (vm_compute; reflexivity).
  split; [|split].
  - exact (proj1 (route_guard sample_backend sample_valid_email _) H1).
  - exact (proj1 (proj2 (route_guard sample_backend sample_valid_email _)) H2 H3).
  - destruct (route_guard sample_backend sample_valid_email w)
      as (_ & _ & Hd & Hc & _).
    rewrite (Hd H4 H5), (proj2 Hc H6). reflexivity.
Defined.

(** With a résumé chosen the application is posted, with an empty cover
    letter too; with none chosen nothing happens. *)
Lemma application_submit_example :
  let w := application_modal_open sample_backend sample_valid_email in
  map (fun r => (req_url r, req_body r))
      (drop (length (network (browser w)))
         (network (browser (step sample_backend sample_valid_email "/"
                              (ApplicationModal_submit "r1" "") w))))
    = [("http://localhost:8001/api/applications",
        JsonBody (JObj [("job_id", JStr "j1"); ("resume_id", JStr "r1");
                        ("cover_letter", JStr "")]))] ∧
  step sample_backend sample_valid_email "/"
    (ApplicationModal_submit "" "Dear hiring manager") w = w.
Proof.
  intros w.
  assert (Hne : "r1" ≠ "") by discriminate.
  destruct (application_submit sample_backend sample_valid_email "/" w sample_job
              "r1" "" eq_refl eq_refl) as (_ & _ & Hsend & _).
  destruct (application_submit sample_backend sample_valid_email "/" w sample_job
              "" "Dear hiring manager" eq_refl eq_refl) as (_ & _ & _ & Hnoop & _).
  split; [|exact (Hnoop eq_refl)].
  rewrite (Hsend Hne eq_refl), drop_app_length. reflexivity.
Defined.

(** A job form with one salary bound and blank requirement lines. *)
Example job_payload_example :
  formattedData
    (JobForm.mk "Engineer" "Acme" "Remote" "50000" "" "Build things"
       ["Rocq"; "   "; ""; " proofs "] "full-time")
  = JObj [("title", JStr "Engineer"); ("company", JStr "Acme");
          ("location", JStr "Remote"); ("salary_min", JNum 50000);
          ("salary_max", JNull); ("description", JStr "Build things");
          ("requirements", JArr [JStr "Rocq"; JStr " proofs "]);
          ("job_type", JStr "full-time")].
Proof. reflexivity. Qed.

(** * Worked examples for the further properties *)

(** After the sample sign-in, logging out and a failed second sign-in leave
    the loading screen off. *)
Lemma loading_never_resumes_example :
  loading (run sample_backend sample_valid_email "/"
             [ Navigation_clickLogout; Login_submit sample_login_form;
               Deliver 4 (Rejected network_error) ]
             (candidate_session sample_backend sample_valid_email)) = false.
Proof.
  apply loading_never_resumes. vm_compute. reflexivity.
Defined.

(** The sign-in response is what authenticates the sample session. *)
Lemma authenticated_only_by_session_response_example :
  let w := step sample_backend sample_valid_email "/"
             (Login_submit sample_login_form) (boot sample_backend ∅) in
  let ev := Deliver 0 (Resolved (sample_login_response "t1" sample_candidate)) in
  ∃ id data k rest,
    ev = Deliver id (Resolved data) ∧
    take_pending id (pending (browser w)) = Some (k, rest) ∧
    session_cont k = true ∧
    user (step sample_backend sample_valid_email "/" ev w)
      = (if k is KfetchUser then data else prop data "user").
Proof.
  intros w ev.
  apply authenticated_only_by_session_response; vm_compute; reflexivity.
Defined.

(** A rejected upload leaves the sample session as it is. *)
Lemma session_untouched_by_dashboards_example :
  let w := upload_in_flight sample_backend sample_valid_email in
  let w' := step sample_backend sample_valid_email "/"
              (Deliver 4 (Rejected (sample_error 401 (JStr "Token expired")))) w in
  localStorage (browser w') = localStorage (browser w) ∧
  axios_defaults (browser w') = axios_defaults (browser w) ∧
  auth w' = auth w.
Proof.
  intros w w'.
  apply session_untouched_by_dashboards. vm_compute. reflexivity.
Defined.

(** The upload that was in flight at logout resolves afterwards: its
    re-fetch goes out without credentials. *)
Lemma no_bearer_after_logout_example :
  let w := run sample_backend sample_valid_email "/"
             (candidate_signs_in ++
              [Candidate_clickUploadResume; UploadModal_submit sample_file])
             (boot sample_backend ∅) in
  let w' := step sample_backend sample_valid_email "/" Navigation_clickLogout w in
  ∃ new,
    network (browser (step sample_backend sample_valid_email "/"
                        (Deliver 4 (Resolved JNull)) w'))
      = (network (browser w') ++ new)%list ∧
    Forall (carries None) new.
Proof.
  eapply (no_bearer_after_logout sample_backend sample_valid_email ∅
            (candidate_signs_in ++
             [Candidate_clickUploadResume; UploadModal_submit sample_file])).
  vm_compute. reflexivity.
Defined.

Example late_refetch_after_logout :
  let w' := step sample_backend sample_valid_email "/" Navigation_clickLogout
              (upload_in_flight sample_backend sample_valid_email) in
  map (fun r => (req_url r, req_headers r !! "Authorization"))
      (drop (length (network (browser w')))
         (network (browser (step sample_backend sample_valid_email "/"
                              (Deliver 4 (Resolved JNull)) w'))))
  = [("http://localhost:8001/api/resumes", None)].
Proof. vm_compute. reflexivity. Qed.

(** On [/login], the message of a rejected sign-in is still there after a
    second sign-in that succeeds. *)
Lemma login_error_never_cleared_example :
  truthy (LoginState.error (login_st
    (run sample_backend sample_valid_email "/login"
       [ Login_submit sample_login_form;
         Deliver 1 (Resolved (sample_login_response "t1" sample_candidate)) ]
       (login_rejected sample_backend sample_valid_email)))) = true.
Proof.
  apply login_error_never_cleared. vm_compute. reflexivity.
Defined.

Example stale_message_after_sign_in :
  let w := run sample_backend sample_valid_email "/login"
             [ Login_submit sample_login_form;
               Deliver 1 (Resolved (sample_login_response "t1" sample_candidate)) ]
             (login_rejected sample_backend sample_valid_email) in
  authenticated w = true ∧
  App "/login" w = VLogin (Some (JStr "Incorrect email or password")).
Proof. vm_compute. split; reflexivity. Qed.

(** The jobs and the applications of the mounting dashboard may arrive in
    either order. *)
Lemma fetch_responses_commute_example :
  let w := candidate_mounting sample_backend sample_valid_email in
  run sample_backend sample_valid_email "/"
    [Deliver 1 (Resolved (JArr [sample_job])); Deliver 3 (Resolved (JArr []))] w =
  run sample_backend sample_valid_email "/"
    [Deliver 3 (Resolved (JArr [])); Deliver 1 (Resolved (JArr [sample_job]))] w.
Proof.
  intros w.
  eapply (fetch_responses_commute sample_backend sample_valid_email "/" w 1 3
            KCandidate_fetchJobs KCandidate_fetchApplications);
    try (vm_compute; reflexivity).
  discriminate.
Defined.


(** Applying to the first sample job posts its id. *)
Lemma apply_posts_clicked_job_example :
  let w := candidate_session sample_backend sample_valid_email in
  map req_body
    (drop (length (network (browser w)))
       (network (browser (run sample_backend sample_valid_email "/"
          [Candidate_clickApplyNow 0; ApplicationModal_submit "r1" "Hello"] w))))
  = [JsonBody (JObj [("job_id", JStr "j1"); ("resume_id", JStr "r1");
                     ("cover_letter", JStr "Hello")])].
Proof.
  intros w.
  assert (Hne : "r1" ≠ "") by discriminate.
  assert (Hm : Candidate_mounted (App "/" w) = true) by (vm_compute; reflexivity).
  assert (Hj : CandidateState.jobs (candidate w) = JArr [sample_job])
    by (vm_compute; reflexivity).
  rewrite (apply_posts_clicked_job sample_backend sample_valid_email w
             [sample_job] 0 sample_job "r1" "Hello" Hm Hj eq_refl Hne).
  cbn [truthy sample_job]. rewrite drop_app_length. reflexivity.
Defined.

(** The sample sign-in, seen from the sign-in form. *)
Lemma sign_in_shows_dashboard_example :
  App "/" (run sample_backend sample_valid_email "/"
             [ Login_submit sample_login_form;
               Deliver 0 (Resolved (sample_login_response "t1" sample_candidate)) ]
             (boot sample_backend ∅))
  = VProtected (VWelcome (JStr "Alice"))
      (VCandidateDashboard (JArr []) (JArr []) (JArr []) false None).
Proof.
  apply (sign_in_shows_dashboard sample_backend sample_valid_email ∅
           [Login_submit sample_login_form] 0 Klogin []
           (sample_login_response "t1" sample_candidate)).
  - exists None. left. vm_compute. reflexivity.
  - vm_compute. reflexivity.
  - by left.
  - reflexivity.
  - reflexivity.
Defined.

(** The sign-in form with and without a password. *)
Lemma login_submit_allowed_example :
  let w := boot sample_backend ∅ in
  enabled sample_valid_email "/" (Login_submit sample_login_form) w = true ∧
  enabled sample_valid_email "/" (Login_submit (LoginForm.mk "alice@x.com" "")) w
    = false.
Proof.
  intros w.
  assert (Hv : App "/" w = VLogin None) by reflexivity.
  split.
  - apply (login_submit_allowed sample_valid_email "/" w None _ Hv).
    repeat split; discriminate.
  - destruct (enabled sample_valid_email "/" _ w) eqn:He; [|reflexivity].
    apply (login_submit_allowed sample_valid_email "/" w None _ Hv) in He.
    by destruct He as (_ & _ & Hp).
Defined.


(** The sample upload carries the bearer token and the multipart type. *)
Lemma upload_submit_example :
  let w := step sample_backend sample_valid_email "/" Candidate_clickUploadResume
             (candidate_session sample_backend sample_valid_email) in
  ∃ r,
    network (browser (step sample_backend sample_valid_email "/"
                        (UploadModal_submit sample_file) w))
      = (network (browser w) ++ [r])%list ∧
    req_headers r !! "Content-Type" = Some "multipart/form-data" ∧
    req_headers r !! "Authorization" = Some "Bearer t1".
Proof.
  intros w.
  assert (Hv : App "/" w =
               VProtected (VWelcome (JStr "Alice"))
                 (VCandidateDashboard (JArr [sample_job]) (JArr []) (JArr [])
                    true None))
    by (vm_compute; reflexivity).
  destruct (upload_submit sample_backend sample_valid_email "/" w _ _ _ _ _
              sample_file Hv) as [_ H].
  destruct (H eq_refl) as (r & Hn & _ & _ & _ & Hc & Ho).
  exists r. split; [exact Hn|]. split; [exact Hc|].
  rewrite Ho by discriminate. vm_compute. reflexivity.
Defined.

(** A company name typed as employer survives the switch to candidate. *)
Lemma register_edits_keep_other_fields_example :
  let f := Register_edits
             [(Field_role, "employer"); (Field_company_name, "Acme")]
             RegisterForm.init in
  let f' := Register_edits [(Field_role, "candidate"); (Field_phone, "555")] f in
  RegisterForm.company_name f' = "Acme" ∧
  Register_inputs f' =
    [ mkInput type_text true ""; mkInput type_email true "";
      mkInput type_password true ""; mkInput type_tel false "555";
      mkInput type_select false "candidate" ].
Proof.
  intros f f'.
  split; [|reflexivity].
  refine (proj1 (register_edits_keep_other_fields sample_backend
                   Field_company_name
                   [(Field_role, "candidate"); (Field_phone, "555")] f
                   (initial ∅) _)).
  repeat constructor; discriminate.
Defined.

(** Two job cards: one with both bounds, one with minimum salary 0. *)
Lemma salary_line_cases_example :
  salary_line (JObj [("salary_min", JNum 50000); ("salary_max", JNum 70000)])
    = ChildSalaryRange (JNum 50000) (JNum 70000) ∧
  salary_line (JObj [("salary_min", JNum 0); ("salary_max", JNum 70000)])
    = ChildText "0".
Proof.
  split.
  - apply (proj1 (salary_line_cases
                    (JObj [("salary_min", JNum 50000); ("salary_max", JNum 70000)]))).
    by split.
  - apply (proj1 (proj2 (proj2 (proj2 (salary_line_cases
                    (JObj [("salary_min", JNum 0); ("salary_max", JNum 70000)])))))).
    reflexivity.
Defined.
